(** * The HTTP routes of the text-to-speech service ([backend/routes.py])

    A shallow embedding of the handlers for listing, submission, status,
    audio fetch, deletion and health, and of the Python operations they
    rely on, followed by the properties of these routes.

    Conventions.
    - A Python [str] is a [string]; a character stands for the code point
      of the same number (code points below 256).
    - The artifact directory is part of a file system, a finite map from
      paths to file contents.
    - A handler is a computation over the [World] (file system and the
      module-level [job_manager]) that returns a value or raises.
    - A path stands for a file by its text: the file system does not
      resolve [.], [..] or links, it holds regular files only, and reading
      or removing a file that is there does not fail.
    - [print] calls only write to the server log and are left out. *)

From Stdlib Require Import ZArith Floats.PrimFloat Floats.FloatOps Init.Byte.
From Stdlib Require Import Strings.Ascii Strings.String Numbers.DecimalString.
From Stdlib Require Import Sorting.Sorted.
From stdpp Require Import base option list gmap strings sorting.

Local Open Scope Z_scope.
Local Open Scope string_scope.

(** ** Python strings *)

Module Py.

(** [str.isspace] on one character: TAB..CR, FS..US, SPACE, NEL, NBSP. *)
Definition isspace (c : ascii) : bool :=
  let n := N_of_ascii c in
  ((9 <=? n) && (n <=? 13) || (28 <=? n) && (n <=? 32)
   || (n =? 133) || (n =? 160))%N.

Fixpoint lstrip (s : string) : string :=
  match s with
  | EmptyString => EmptyString
  | String c s' => if isspace c then lstrip s' else s
  end.

Fixpoint rstrip (s : string) : string :=
  match s with
  | EmptyString => EmptyString
  | String c s' =>
      match rstrip s' with
      | EmptyString => if isspace c then EmptyString else String c EmptyString
      | r => String c r
      end
  end.

(** [s.strip()] *)
Definition strip (s : string) : string := rstrip (lstrip s).

(** Every character of [s] is whitespace (true of the empty string). *)
Fixpoint blank (s : string) : bool :=
  match s with
  | EmptyString => true
  | String c s' => isspace c && blank s'
  end.

(** [len(s)] *)
Definition len (s : string) : Z := Z.of_nat (String.length s).

(** [s[:n]] for a non-negative literal [n] *)
Definition slice_to (n : nat) (s : string) : string := substring 0 n s.

(** [str(z)] for an [int], as an f-string renders it *)
Definition str_int (z : Z) : string := NilZero.string_of_int (Z.to_int z).

(** [s.startswith(p)] and [s.endswith(p)] *)
Definition startswith (p s : string) : bool := String.prefix p s.

Definition endswith (p s : string) : bool :=
  (String.length p <=? String.length s)%nat
  && (substring (String.length s - String.length p) (String.length p) s
      =? p)%string.

(** [c in s] for a one-character [c] *)
Fixpoint contains (c : ascii) (s : string) : bool :=
  match s with
  | EmptyString => false
  | String c' s' => Ascii.eqb c' c || contains c s'
  end.

(** [posixpath.join(a, b)] *)
Definition os_path_join (a b : string) : string :=
  if startswith "/" b then b
  else if (a =? "")%string then b
  else if (substring (String.length a - 1) 1 a =? "/")%string then a +:+ b
  else a +:+ "/" +:+ b.

End Py.

(** ** The builtin [hash] on [str] in CPython 3.11

    [Python/pyhash.c] and [Python/bootstrap_hash.c]: SipHash-1-3 over the
    one-byte-per-character buffer of the string, keyed by the secret of
    the process.  The secret is drawn at start-up: from [PYTHONHASHSEED]
    when it is set (all zero for seed 0), at random otherwise. *)

Module CPython.

Definition u64 (x : Z) : Z := x mod 2 ^ 64.

Definition rotate (x b : Z) : Z :=
  u64 (Z.lor (Z.shiftl x b) (Z.shiftr x (64 - b))).

Definition half_round (s t : Z) (v : Z * Z * Z * Z) : Z * Z * Z * Z :=
  let '(a, b, c, d) := v in
  let a := u64 (a + b) in
  let c := u64 (c + d) in
  let b := Z.lxor (rotate b s) a in
  let d := Z.lxor (rotate d t) c in
  let a := rotate a 32 in
  (a, b, c, d).

Definition single_round (v : Z * Z * Z * Z) : Z * Z * Z * Z :=
  let '(v0, v1, v2, v3) := v in
  let '(v0, v1, v2, v3) := half_round 13 16 (v0, v1, v2, v3) in
  let '(v2, v1, v0, v3) := half_round 17 21 (v2, v1, v0, v3) in
  (v0, v1, v2, v3).

Definition compress (v : Z * Z * Z * Z) (mi : Z) : Z * Z * Z * Z :=
  let '(v0, v1, v2, v3) := v in
  let '(v0, v1, v2, v3) := single_round (v0, v1, v2, Z.lxor v3 mi) in
  (Z.lxor v0 mi, v1, v2, v3).

(** The loop over the input: [t] gathers [n] bytes, little end first,
    and is mixed in when it holds eight. *)
Fixpoint absorb (v : Z * Z * Z * Z) (t : Z) (n : nat) (src : list Z)
    : (Z * Z * Z * Z) * Z :=
  match src with
  | [] => (v, t)
  | x :: src' =>
      let t' := Z.lor t (Z.shiftl x (8 * Z.of_nat n)) in
      match n with
      | 7%nat => absorb (compress v t') 0 0 src'
      | _ => absorb v t' (S n) src'
      end
  end.

Definition siphash13 (k0 k1 : Z) (src : list Z) : Z :=
  let b := u64 (Z.shiftl (Z.of_nat (length src)) 56) in
  let v := (Z.lxor k0 0x736f6d6570736575, Z.lxor k1 0x646f72616e646f6d,
            Z.lxor k0 0x6c7967656e657261, Z.lxor k1 0x7465646279746573) in
  let '(v, t) := absorb v 0 0 src in
  let b := Z.lor b t in
  let '(v0, v1, v2, v3) := compress v b in
  let v2 := Z.lxor v2 0xff in
  let '(v0, v1, v2, v3) :=
    single_round (single_round (single_round (v0, v1, v2, v3))) in
  Z.lxor (Z.lxor v0 v1) (Z.lxor v2 v3).

(** [lcg_urandom]: the secret derived from a non-zero seed. *)
Fixpoint lcg_urandom (x : Z) (size : nat) : list Z :=
  match size with
  | O => []
  | S size' =>
      let x := (x * 214013 + 2531011) mod 2 ^ 32 in
      Z.land (Z.shiftr x 16) 0xff :: lcg_urandom x size'
  end.

Definition le64 (bs : list Z) : Z := foldr (fun b acc => b + 256 * acc) 0 bs.

(** The two key words of the secret for [PYTHONHASHSEED=seed]. *)
Definition secret (seed : Z) : Z * Z :=
  if (seed =? 0)%Z then (0, 0)
  else let buf := lcg_urandom seed 24 in
       (le64 (take 8 buf), le64 (take 8 (drop 8 buf))).

Definition signed (x : Z) : Z := if (x <? 2 ^ 63)%Z then x else x - 2 ^ 64.

(** [hash(s)] in a process started with [PYTHONHASHSEED=seed]. *)
Definition str_hash (seed : Z) (s : string) : Z :=
  match s with
  | EmptyString => 0
  | _ =>
      let '(k0, k1) := secret seed in
      let x :=
        signed (siphash13 k0 k1
                  ((fun c => Z.of_N (N_of_ascii c))
                     <$> list_ascii_of_string s)) in
      if (x =? -1)%Z then -2 else x
  end.

End CPython.

(** ** Data model *)

(** [job_management.JobStatus] *)
Inductive JobStatus := QUEUED | PROCESSING | COMPLETED | FAILED.

Global Instance JobStatus_eq_dec : EqDecision JobStatus.
Proof. solve_decision. Defined.

(** [models.TTSRequestModel]: the body of a submission.  [text] is [None]
    when the field is absent; the voice parameters are carried through
    unchanged. *)
Module TTSRequestModel.
Record t := mk
  { text : option string; voice : string; pitch : string;
    speed : string; volume : string }.
End TTSRequestModel.

(** [job_management.TTSRequest] *)
Module TTSRequest.
Record t := mk
  { text : string; voice : string; pitch : string;
    speed : string; volume : string }.
End TTSRequest.

(** The values of [job_manager.jobs]: the handlers read [status],
    [created_at] (a float timestamp) and [request]. *)
Module JobInfo.
Record t := mk
  { status : JobStatus; created_at : float; request : TTSRequest.t }.
End JobInfo.

(** The job table is a Python [dict]: keys in insertion order. *)
Definition dict (V : Type) := list (string * V).

Fixpoint dict_get {V} (k : string) (d : dict V) : option V :=
  match d with
  | [] => None
  | (k', v) :: d' => if (k' =? k)%string then Some v else dict_get k d'
  end.

(** [d[k] = v]: an existing key keeps its place. *)
Fixpoint dict_set {V} (k : string) (v : V) (d : dict V) : dict V :=
  match d with
  | [] => [(k, v)]
  | (k', v') :: d' =>
      if (k' =? k)%string then (k, v) :: d' else (k', v') :: dict_set k v d'
  end.

(** [d.pop(k, None)] *)
Fixpoint dict_del {V} (k : string) (d : dict V) : dict V :=
  match d with
  | [] => []
  | (k', v') :: d' =>
      if (k' =? k)%string then dict_del k d' else (k', v') :: dict_del k d'
  end.

(** [k in d] *)
Definition dict_contains {V} (k : string) (d : dict V) : bool :=
  match dict_get k d with Some _ => true | None => false end.

(** One entry of the job listing (a dict with these keys).  [created_at]
    is [None] when the key is missing, which [x.get("created_at", "")]
    covers; when present it is a string. *)
Module JobEntry.
Record t := mk
  { job_id : string; status : string; created_at : option string;
    audio_exists : bool; text : option string }.
End JobEntry.

(** Values found in the [detail] of an error. [VTraceback] stands for the
    text of [traceback.format_exc()]. *)
Inductive PyVal := VStr (s : string) | VInt (z : Z) | VTraceback.

(** Exceptions: [fastapi.HTTPException] and any other [Exception], of
    which only [str(e)] is observed. *)
Inductive exn :=
| HTTPException (status_code : Z) (detail : list (string * PyVal))
| Exception (str : string).

Module TTSResponseModel.
Record t := mk { job_id : string }.
End TTSResponseModel.

Module JobStatusResponse.
Record t := mk { job_id : string; status : string; message : string }.
End JobStatusResponse.

(** [fastapi.Response]; [headers] holds the headers the handler sets. *)
Module Response.
Record t := mk
  { content : list Byte.byte; media_type : string;
    headers : gmap string string }.
End Response.

(** The dict [health_check] returns; [traceback] is [None] when the key
    is absent. *)
Module HealthStatus.
Record t := mk
  { status : string; audio_files_count : Z; active_jobs_size : Z;
    memory_jobs_count : Z; message : string; traceback : option PyVal }.
End HealthStatus.

(** A task handed to [BackgroundTasks.add_task]; it runs after the
    response has been sent. *)
Inductive task := cleanup_job_task (job_id : string).

(** ** Collaborators that are imported by the routes *)

(** The interpreter: the builtin [hash] on [str] of the running process and
    [datetime.datetime.fromtimestamp(t).isoformat()] in its time zone. *)
Class PyRuntime := {
  hash : string -> Z;
  fromtimestamp_isoformat : float -> string;
}.

(** The [job_management] package as the routes use it: the attributes
    [jobs] and [max_concurrent] of a [JobManager], its methods, the values
    of the [JobStatus] enumeration and [AUDIO_DIR]. *)
Class JobManagement := {
  JobManager : Type;
  jobs : JobManager -> dict JobInfo.t;
  max_concurrent : JobManager -> Z;
  get_queue_size : JobManager -> Z;
  add_job : TTSRequest.t -> JobManager -> string * JobManager;
  cleanup_job : string -> JobManager -> JobManager;
  JobStatus_value : JobStatus -> string;
  AUDIO_DIR : string;
}.

(** [storage.load_jobs], which reads the artifact directory. *)
Class Storage := {
  load_jobs : gmap string (list Byte.byte) -> list JobEntry.t;
}.

(** ** Computations that may raise *)

Inductive result (E A : Type) :=
| Return (a : A)
| Raise (e : E).
Arguments Return {E A} a.
Arguments Raise {E A} e.

Section Routes.
Context `{PyRuntime} `{JobManagement} `{Storage}.

(** What the handlers read and write: the file system and the module
    variable [job_manager] ([None] until [initialize_router]). *)
Record World := mkWorld
  { fs : gmap string (list Byte.byte); job_manager : option JobManager }.

Definition M (E A : Type) := World -> result E A * World.

Definition ret {E A} (a : A) : M E A := fun w => (Return a, w).
Definition raise {E A} (e : E) : M E A := fun w => (Raise e, w).
Definition bind {E A B} (c : M E A) (k : A -> M E B) : M E B :=
  fun w => match c w with
           | (Return a, w') => k a w'
           | (Raise e, w') => (Raise e, w')
           end.

Notation "'let!' x := c 'in' k" := (bind c (fun x => k))
  (at level 10, x name, c at level 100, k at level 200).
Notation "'do!' c 'in' k" := (bind c (fun _ => k))
  (at level 10, c at level 100, k at level 200).

(** [try: body / except Exception as e: raise handler(e)], for a body
    that raises no [HTTPException] of its own. *)
Definition except_Exception {A} (body : M string A)
    (handler : string -> exn) : M exn A :=
  fun w => match body w with
           | (Return a, w') => (Return a, w')
           | (Raise e, w') => (Raise (handler e), w')
           end.

(** [try: body / except HTTPException as he: raise he /
    except Exception as e: raise handler(e)] *)
Definition except_HTTPException_Exception {A} (body : M exn A)
    (handler : string -> exn) : M exn A :=
  fun w => match body w with
           | (Raise (Exception e), w') => (Raise (handler e), w')
           | r => r
           end.

(** Evaluating [job_manager.attr]: an [AttributeError] while the module
    variable is still [None]. *)
Definition job_manager_attr {E A} (err : string -> E) (attr : string)
    (f : JobManager -> A) : M E A :=
  fun w => match job_manager w with
           | Some m => (Return (f m), w)
           | None =>
               (Raise (err
                  ("'NoneType' object has no attribute '" +:+ attr +:+ "'")),
                w)
           end.

(** Reading the current state. *)
Definition gets {E A} (f : World -> A) : M E A := fun w => (Return (f w), w).

(** [os.path.exists], [open(path, "rb").read()] and [os.remove]. *)
Definition os_path_exists (path : string) (w : World) : bool :=
  bool_decide (is_Some (fs w !! path)).

Definition No_such_file (path : string) : string :=
  "[Errno 2] No such file or directory: '" +:+ path +:+ "'".

Definition read_bytes {E} (err : string -> E) (path : string)
    : M E (list Byte.byte) :=
  fun w => match fs w !! path with
           | Some data => (Return data, w)
           | None => (Raise (err (No_such_file path)), w)
           end.

Definition os_remove (path : string) : M string unit :=
  fun w => match fs w !! path with
           | Some _ =>
               (Return tt,
                {| fs := delete path (fs w); job_manager := job_manager w |})
           | None => (Raise (No_such_file path), w)
           end.

(** [os.path.join(AUDIO_DIR, f"{job_id}.mp3")] *)
Definition audio_path (job_id : string) : string :=
  Py.os_path_join AUDIO_DIR (job_id +:+ ".mp3").

(** [initialize_router] *)
Definition initialize_router (manager : JobManager) (w : World) : World :=
  {| fs := fs w; job_manager := Some manager |}.

(** Modelled from the spec: [JobManager.get_job_status] is not among the
    sources.  "Returns the current status of an in-memory job, or a
    not-found signal if the identifier is unknown to memory." *)
Definition JobManager_get_job_status (m : JobManager) (job_id : string)
    : option JobStatus :=
  JobInfo.status <$> dict_get job_id (jobs m).

(** [await job_manager.add_job(request)] *)
Definition call_add_job (request : TTSRequest.t) : M exn string :=
  fun w => match job_manager w with
           | Some m =>
               let (job_id, m') := add_job request m in
               (Return job_id, {| fs := fs w; job_manager := Some m' |})
           | None =>
               (Raise (Exception
                  "'NoneType' object has no attribute 'add_job'"), w)
           end.

(** *** [GET /tts/jobs] *)

(** [text[:100] + "..." if len(text) > 100 else text] *)
Definition text_preview (text : string) : string :=
  if (Py.len text >? 100)%Z then Py.slice_to 100 text +:+ "..." else text.

(** The loop over [job_manager.jobs.items()]. *)
Fixpoint active_jobs_loop (items : dict JobInfo.t) (w : World)
    : list JobEntry.t :=
  match items with
  | [] => []
  | (job_id, job_info) :: items' =>
      if os_path_exists (audio_path job_id) w
      then active_jobs_loop items' w
      else
        {| JobEntry.job_id := job_id;
           JobEntry.status := JobStatus_value (JobInfo.status job_info);
           JobEntry.created_at :=
             Some (fromtimestamp_isoformat (JobInfo.created_at job_info));
           JobEntry.audio_exists := false;
           JobEntry.text :=
             Some (text_preview
                     (TTSRequest.text (JobInfo.request job_info))) |}
        :: active_jobs_loop items' w
  end.

Definition active_jobs (w : World) : list JobEntry.t :=
  match job_manager w with
  | Some m => active_jobs_loop (jobs m) w
  | None => []
  end.

(** [lambda x: x.get("created_at", "")] *)
Definition sort_key (x : JobEntry.t) : string :=
  default "" (JobEntry.created_at x).

(** [a] may stand before [b] in a listing that is newest first: the
    [created_at] of [b] is not above that of [a]. *)
Definition newest_first (a b : JobEntry.t) : Prop :=
  String.leb (sort_key b) (sort_key a) = true.

(** [l.sort(key=key, reverse=True)]: a stable sort, largest key first;
    entries with equal keys keep their order.  Keys are compared as
    Python compares strings, code point by code point. *)
Fixpoint insert_reverse {A} (key : A -> string) (x : A) (l : list A)
    : list A :=
  match l with
  | [] => [x]
  | y :: l' =>
      if String.ltb (key x) (key y) then y :: insert_reverse key x l'
      else x :: l
  end.

Definition sort_reverse {A} (key : A -> string) (l : list A) : list A :=
  foldr (insert_reverse key) [] l.

Definition get_all_jobs : M exn (list JobEntry.t) :=
  except_Exception
    (let! completed_jobs := gets (fun w => load_jobs (fs w)) in
     let! active_jobs := gets active_jobs in
     let all_jobs := sort_reverse sort_key (completed_jobs ++ active_jobs)%list in
     ret (take 50 all_jobs))
    (fun e => HTTPException 500
                [("message", VStr e); ("traceback", VTraceback)]).

(** *** [POST /tts]

    The second parameter of the handler, [req], only feeds the log line. *)

Definition tts_endpoint (request : TTSRequestModel.t)
    : M exn TTSResponseModel.t :=
  except_HTTPException_Exception
    (match TTSRequestModel.text request with
     | None =>
         raise (HTTPException 400 [("message", VStr "Text is required")])
     | Some text =>
         if (text =? "")%string || (Py.strip text =? "")%string then
           raise (HTTPException 400 [("message", VStr "Text is required")])
         else
           let! queue_size :=
             job_manager_attr Exception "get_queue_size" get_queue_size in
           let! limit :=
             job_manager_attr Exception "max_concurrent"
               (fun m => max_concurrent m * 2) in
           if (queue_size >? limit)%Z then
             let! queue_size' :=
               job_manager_attr Exception "get_queue_size" get_queue_size in
             raise (HTTPException 503
                [("message",
                  VStr "Server is currently at capacity. Please try again later.");
                 ("queue_size", VInt queue_size')])
           else
             let! job_id :=
               call_add_job
                 {| TTSRequest.text := Py.strip text;
                    TTSRequest.voice := TTSRequestModel.voice request;
                    TTSRequest.pitch := TTSRequestModel.pitch request;
                    TTSRequest.speed := TTSRequestModel.speed request;
                    TTSRequest.volume := TTSRequestModel.volume request |} in
             ret {| TTSResponseModel.job_id := job_id |}
     end)
    (fun e => HTTPException 500
                [("message", VStr ("Internal server error: " +:+ e));
                 ("traceback", VTraceback)]).

(** The [TTSRequest] the handler builds from a submission of [text]. *)
Definition submitted_request (request : TTSRequestModel.t) (text : string)
    : TTSRequest.t :=
  {| TTSRequest.text := Py.strip text;
     TTSRequest.voice := TTSRequestModel.voice request;
     TTSRequest.pitch := TTSRequestModel.pitch request;
     TTSRequest.speed := TTSRequestModel.speed request;
     TTSRequest.volume := TTSRequestModel.volume request |}.

(** *** [GET /tts/status/{job_id}] *)

Definition get_job_status (job_id : string) : M exn JobStatusResponse.t :=
  except_HTTPException_Exception
    (let! audio_exists := gets (os_path_exists (audio_path job_id)) in
     if audio_exists then
       ret {| JobStatusResponse.job_id := job_id;
              JobStatusResponse.status := "completed";
              JobStatusResponse.message := "Audio is ready" |}
     else
       let! status :=
         job_manager_attr Exception "get_job_status"
           (fun m => JobManager_get_job_status m job_id) in
       match status with
       | None =>
           raise (HTTPException 404
                    [("message", VStr ("Job " +:+ job_id +:+ " not found"));
                     ("job_id", VStr job_id)])
       | Some status =>
           ret {| JobStatusResponse.job_id := job_id;
                  JobStatusResponse.status := JobStatus_value status;
                  JobStatusResponse.message :=
                    if decide (status = PROCESSING)
                    then "Audio is being processed"
                    else "Audio is ready" |}
       end)
    (fun e => HTTPException 500
                [("message", VStr ("Error checking job status: " +:+ e));
                 ("traceback", VTraceback)]).

(** *** [GET /tts/audio/{job_id}] *)

Definition dquote : string := String (ascii_of_nat 34) EmptyString.

(** [f'"{hash(job_id)}"'] *)
Definition etag (job_id : string) : string :=
  dquote +:+ Py.str_int (hash job_id) +:+ dquote.

Definition get_audio (job_id : string) : M exn Response.t :=
  let! audio_exists := gets (os_path_exists (audio_path job_id)) in
  if negb audio_exists then
    raise (HTTPException 404
             [("message",
               VStr ("Audio for job " +:+ job_id
                     +:+ " not found or not ready yet"));
              ("job_id", VStr job_id)])
  else
    except_HTTPException_Exception
      (let! audio_data := read_bytes Exception (audio_path job_id) in
       if bool_decide (audio_data = [])
          || (Z.of_nat (length audio_data) <? 100)%Z then
         raise (HTTPException 422
                  [("message",
                    VStr ("Audio file appears to be incomplete for job "
                          +:+ job_id));
                   ("job_id", VStr job_id)])
       else
         ret {| Response.content := audio_data;
                Response.media_type := "audio/mpeg";
                Response.headers :=
                  <["ETag" := etag job_id]>
                    (<["Cache-Control" := "public, max-age=86400"]> ∅) |})
      (fun e => HTTPException 500
                  [("message", VStr ("Error reading audio file: " +:+ e));
                   ("traceback", VTraceback)]).

(** *** [DELETE /tts/audio/{job_id}] *)

(** The handler returns its message; the [background_tasks] object it
    was given is returned with it, as the handler leaves it. *)
Definition delete_audio (job_id : string) (background_tasks : list task)
    : M exn (list (string * PyVal) * list task) :=
  let! audio_exists := gets (os_path_exists (audio_path job_id)) in
  if negb audio_exists then
    raise (HTTPException 404
             [("message", VStr ("Audio for job " +:+ job_id +:+ " not found"));
              ("job_id", VStr job_id)])
  else
    except_Exception
      (do! os_remove (audio_path job_id) in
       let! in_jobs :=
         job_manager_attr id "jobs"
           (fun m => dict_contains job_id (jobs m)) in
       let background_tasks' :=
         if (in_jobs : bool)
         then (background_tasks ++ [cleanup_job_task job_id])%list
         else background_tasks in
       ret ([("message",
              VStr ("Audio for job " +:+ job_id +:+ " deleted successfully"))],
            background_tasks'))
      (fun e => HTTPException 500
                  [("message", VStr ("Failed to delete audio: " +:+ e));
                   ("traceback", VTraceback)]).

(** Running a background task once the response is out:
    [job_manager.cleanup_job(job_id)]. *)
Definition run_task (t : task) (w : World) : World :=
  match t with
  | cleanup_job_task job_id =>
      {| fs := fs w; job_manager := cleanup_job job_id <$> job_manager w |}
  end.

(** [str(e)] of the [AttributeError] raised on [job_manager.attr] while
    [job_manager] is [None]. *)
Definition NoneType_has_no (attr : string) : string :=
  "'NoneType' object has no attribute '" +:+ attr +:+ "'".

(** The background tasks of a response run one after the other, in the
    order they were added. *)
Definition run_tasks (ts : list task) (w : World) : World :=
  foldl (fun w t => run_task t w) w ts.

(** *** [GET /health] *)

(** [try: body / except Exception as e: return handler(e)] *)
Definition except_Exception_return {A} (body : M string A)
    (handler : string -> A) : M exn A :=
  fun w => match body w with
           | (Return a, w') => (Return a, w')
           | (Raise e, w') => (Return (handler e), w')
           end.

(** The handler looks at the artifact directory itself, not at single
    files: [audio_dir] is what it finds there, the entries
    [os.listdir(AUDIO_DIR)] returns, or [None] when
    [os.path.exists(AUDIO_DIR)] is false. *)
Definition health_check (audio_dir : option (list string))
    : M exn HealthStatus.t :=
  except_Exception_return
    (let audio_files_count :=
       match audio_dir with
       | Some entries =>
           Z.of_nat (length (filter (fun f => Py.endswith ".mp3" f = true)
                               entries))
       | None => 0
       end in
     let! active_jobs_size :=
       gets (fun w => match job_manager w with
                      | Some m => get_queue_size m
                      | None => 0
                      end) in
     let! memory_jobs_count :=
       gets (fun w => match job_manager w with
                      | Some m => Z.of_nat (length (jobs m))
                      | None => 0
                      end) in
     ret {| HealthStatus.status := "healthy";
            HealthStatus.audio_files_count := audio_files_count;
            HealthStatus.active_jobs_size := active_jobs_size;
            HealthStatus.memory_jobs_count := memory_jobs_count;
            HealthStatus.message := "System is operational";
            HealthStatus.traceback := None |})
    (fun e => {| HealthStatus.status := "unhealthy";
                 HealthStatus.audio_files_count := 0;
                 HealthStatus.active_jobs_size := 0;
                 HealthStatus.memory_jobs_count := 0;
                 HealthStatus.message := "Error: " +:+ e;
                 HealthStatus.traceback := Some VTraceback |}).

(** What the handler finds in the artifact directory agrees with the file
    system: a file that lies directly in [AUDIO_DIR] is among the entries,
    no entry is there twice, and the directory is only absent when no such
    file is. *)
Definition audio_dir_lists (audio_dir : option (list string)) (w : World)
    : Prop :=
  match audio_dir with
  | Some entries =>
      NoDup entries
      /\ forall name,
           Py.contains "/" name = false ->
           is_Some (fs w !! Py.os_path_join AUDIO_DIR name) ->
           name ∈ entries
  | None =>
      forall name,
        Py.contains "/" name = false ->
        fs w !! Py.os_path_join AUDIO_DIR name = None
  end.

End Routes.

(** ** What the spec says of the collaborators *)

Section Contracts.
Context `{JobManagement} `{Storage}.

(** Modelled from the spec: [storage.load_jobs] is not among the sources.
    "Completed jobs derived by scanning the Artifact Store for all
    persisted artifacts": every entry it returns names a job whose
    artifact is in the store. *)
Definition load_jobs_scans_artifacts : Prop :=
  forall (files : gmap string (list Byte.byte)) (e : JobEntry.t),
    e ∈ load_jobs files ->
    is_Some (files !! audio_path (JobEntry.job_id e)).

(** Modelled from the spec: [JobManager.add_job] is not among the sources.
    "Constructs a Job Record with status QUEUED and a fresh unique
    identifier [...] and returns immediately": the record of the
    returned identifier holds the request that was handed in. *)
Definition add_job_records_request : Prop :=
  forall (request : TTSRequest.t) (m : JobManager),
    exists info,
      dict_get (add_job request m).1 (jobs (add_job request m).2) = Some info
      /\ JobInfo.request info = request
      /\ JobInfo.status info = QUEUED.

(** Modelled from the spec: [JobManager.cleanup_job] is not among the
    sources.  "Removes the in-memory record for job_id if present;
    idempotent; no-op if absent": afterwards the table has no record of
    the job_id, and the records of other jobs are as before. *)
Definition cleanup_job_removes_record : Prop :=
  forall (job_id : string) (m : JobManager),
    dict_get job_id (jobs (cleanup_job job_id m)) = None
    /\ forall other,
         other <> job_id ->
         dict_get other (jobs (cleanup_job job_id m))
         = dict_get other (jobs m).

(** The admission rule read over every text that is not empty, blank
    texts included. *)
Definition admission_for_nonempty_text : Prop :=
  forall (request : TTSRequestModel.t) (text : string) (w : World)
         (m : JobManager),
    TTSRequestModel.text request = Some text ->
    text <> "" ->
    job_manager w = Some m ->
    (get_queue_size m > max_concurrent m * 2 ->
     exists detail,
       tts_endpoint request w = (Raise (HTTPException 503 detail), w))
    /\ (get_queue_size m <= max_concurrent m * 2 ->
        exists response w', tts_endpoint request w = (Return response, w')).

(** The listing read as ordered by creation time: of two active jobs of
    the listing, the one that stands first was not created before the
    other ([created_at] of their records in the job table). *)
Definition listing_by_creation_time : Prop :=
  forall (p : PyRuntime) (w : World) (m : JobManager)
         (listing : list JobEntry.t) (i j : nat) (e1 e2 : JobEntry.t)
         (info1 info2 : JobInfo.t),
    job_manager w = Some m ->
    (@get_all_jobs p _ _ w).1 = Return listing ->
    (i < j)%nat ->
    listing !! i = Some e1 ->
    listing !! j = Some e2 ->
    JobEntry.audio_exists e1 = false ->
    JobEntry.audio_exists e2 = false ->
    dict_get (JobEntry.job_id e1) (jobs m) = Some info1 ->
    dict_get (JobEntry.job_id e2) (jobs m) = Some info2 ->
    PrimFloat.leb (JobInfo.created_at info2) (JobInfo.created_at info1)
    = true.

(** The validator tag read as a function of the job identifier and of
    nothing else: two successful fetches of one identifier, by whichever
    interpreter process serves them, carry the same [ETag]. *)
Definition etag_of_job_id_alone : Prop :=
  forall (p1 p2 : PyRuntime) (job_id : string) (w1 w2 : World)
         (r1 r2 : Response.t),
    (@get_audio p1 _ job_id w1).1 = Return r1 ->
    (@get_audio p2 _ job_id w2).1 = Return r2 ->
    Response.headers r1 !! "ETag" = Response.headers r2 !! "ETag".

End Contracts.

(** ** A reference instance of the collaborators *)

Module Reference.

(** Whole seconds of a non-negative timestamp. *)
Definition seconds (t : float) : Z :=
  match FloatOps.Prim2SF t with
  | SpecFloat.S754_finite false m e =>
      if (0 <=? e)%Z then Z.pos m * 2 ^ e else Z.pos m / 2 ^ (- e)
  | _ => 0
  end.

Definition digits (width : nat) (z : Z) : string :=
  let s := Py.str_int z in
  string_of_list_ascii (replicate (width - String.length s) "0"%char) +:+ s.

(** The calendar date of a day number (days since 1970-01-01). *)
Definition civil_from_days (days : Z) : Z * Z * Z :=
  let z := days + 719468 in
  let era := z / 146097 in
  let doe := z - era * 146097 in
  let yoe := (doe - doe / 1460 + doe / 36524 - doe / 146096) / 365 in
  let doy := doe - (365 * yoe + yoe / 4 - yoe / 100) in
  let mp := (5 * doy + 2) / 153 in
  let d := doy - (153 * mp + 2) / 5 + 1 in
  let m := if (mp <? 10)%Z then mp + 3 else mp - 9 in
  let y := yoe + era * 400 + (if (m <=? 2)%Z then 1 else 0) in
  (y, m, d).

(** [fromtimestamp(t).isoformat()] for a process whose time zone is UTC
    and a timestamp of whole seconds. *)
Definition utc_isoformat (t : float) : string :=
  let s := seconds t in
  let '(y, m, d) := civil_from_days (s / 86400) in
  let r := s mod 86400 in
  digits 4 y +:+ "-" +:+ digits 2 m +:+ "-" +:+ digits 2 d +:+ "T"
  +:+ digits 2 (r / 3600) +:+ ":" +:+ digits 2 (r mod 3600 / 60) +:+ ":"
  +:+ digits 2 (r mod 60).

(** The ISO text of a wall-clock reading given in whole seconds. *)
Definition isoformat_seconds (s : Z) : string :=
  let '(y, m, d) := civil_from_days (s / 86400) in
  let r := s mod 86400 in
  digits 4 y +:+ "-" +:+ digits 2 m +:+ "-" +:+ digits 2 d +:+ "T"
  +:+ digits 2 (r / 3600) +:+ ":" +:+ digits 2 (r mod 3600 / 60) +:+ ":"
  +:+ digits 2 (r mod 60).

(** [fromtimestamp(t).isoformat()] for a process whose time zone is
    Europe/Berlin, around the end of summer time on 2023-10-29: local
    time is UTC+2 before 01:00 UTC (timestamp 1698541200) and UTC+1 from
    then on, so the local hour from 02:00 to 03:00 passes twice. *)
Definition berlin_isoformat (t : float) : string :=
  let s := seconds t in
  isoformat_seconds (s + (if (s <? 1698541200)%Z then 7200 else 3600)).

(** The interpreter of such a process. *)
Definition berlin_runtime : PyRuntime :=
  {| hash := CPython.str_hash 1;
     fromtimestamp_isoformat := berlin_isoformat |}.

(** The interpreter of a process started with [PYTHONHASHSEED=seed]. *)
Definition runtime (seed : Z) : PyRuntime :=
  {| hash := CPython.str_hash seed;
     fromtimestamp_isoformat := utc_isoformat |}.

(** Modelled from the spec: the job manager is not among the sources.
    The table of records, the worker limit, the number of identifiers
    issued so far and the clock reading used for the next record. *)
Record manager := mk_manager
  { m_jobs : dict JobInfo.t; m_max_concurrent : Z;
    m_issued : nat; m_now : float }.

(** Modelled from the spec: "returns the current count of jobs not yet
    COMPLETED/FAILED (QUEUED + PROCESSING)". *)
Definition queue_size (m : manager) : Z :=
  Z.of_nat
    (length
       (filter
          (fun kv => JobInfo.status kv.2 = QUEUED
                     \/ JobInfo.status kv.2 = PROCESSING)
          (m_jobs m))).

(** Modelled from the spec: "constructs a Job Record with status QUEUED
    and a fresh unique identifier, appends it to the pending queue,
    records creation time, and returns immediately". *)
Definition submit (request : TTSRequest.t) (m : manager) : string * manager :=
  let job_id := "job-" +:+ Py.str_int (Z.of_nat (m_issued m)) in
  (job_id,
   {| m_jobs :=
        dict_set job_id
          {| JobInfo.status := QUEUED; JobInfo.created_at := m_now m;
             JobInfo.request := request |}
          (m_jobs m);
      m_max_concurrent := m_max_concurrent m;
      m_issued := S (m_issued m);
      m_now := m_now m |}).

(** Modelled from the spec: "removes the in-memory record for job_id if
    present; idempotent; no-op if absent". *)
Definition cleanup (job_id : string) (m : manager) : manager :=
  {| m_jobs := dict_del job_id (m_jobs m);
     m_max_concurrent := m_max_concurrent m;
     m_issued := m_issued m;
     m_now := m_now m |}.

Definition status_value (s : JobStatus) : string :=
  match s with
  | QUEUED => "queued"
  | PROCESSING => "processing"
  | COMPLETED => "completed"
  | FAILED => "failed"
  end.

Definition job_management : JobManagement :=
  {| JobManager := manager;
     jobs := m_jobs;
     max_concurrent := m_max_concurrent;
     get_queue_size := queue_size;
     add_job := submit;
     cleanup_job := cleanup;
     JobStatus_value := status_value;
     AUDIO_DIR := "audio" |}.

(** Modelled from the spec: one completed entry per artifact file
    [audio/<job_id>.mp3] of the store. *)
Definition entry_of_file (file : string * list Byte.byte)
    : option JobEntry.t :=
  let path := file.1 in
  if Py.startswith "audio/" path && Py.endswith ".mp3" path then
    let job_id := substring 6 (String.length path - 10) path in
    if (@audio_path job_management job_id =? path)%string then
      Some {| JobEntry.job_id := job_id;
              JobEntry.status := "completed";
              JobEntry.created_at := None;
              JobEntry.audio_exists := true;
              JobEntry.text := None |}
    else None
  else None.

Definition scan (files : gmap string (list Byte.byte)) : list JobEntry.t :=
  omap entry_of_file (map_to_list files).

Definition storage : Storage := {| load_jobs := scan |}.

End Reference.

(** ** A scenario on the reference instance

    Two jobs are in memory: [a], still marked PROCESSING although its
    artifact is already written, and [b], queued.  The store also holds a
    truncated artifact [c] of one byte. *)

Module Scenario.

(** The interpreter of a process started with [PYTHONHASHSEED=1]. *)
Definition runtime : PyRuntime := Reference.runtime 1.

Definition submission (text : option string) : TTSRequestModel.t :=
  {| TTSRequestModel.text := text;
     TTSRequestModel.voice := "en-US-AriaNeural";
     TTSRequestModel.pitch := "+0Hz";
     TTSRequestModel.speed := "+0%";
     TTSRequestModel.volume := "+0%" |}.

Definition job (status : JobStatus) (created_at : float) (text : string)
    : JobInfo.t :=
  {| JobInfo.status := status;
     JobInfo.created_at := created_at;
     JobInfo.request :=
       {| TTSRequest.text := text;
          TTSRequest.voice := "en-US-AriaNeural";
          TTSRequest.pitch := "+0Hz";
          TTSRequest.speed := "+0%";
          TTSRequest.volume := "+0%" |} |}.

(** One worker, two jobs not finished: at the limit, not above it. *)
Definition manager : Reference.manager :=
  {| Reference.m_jobs :=
       [("a", job PROCESSING 1700000000 "first");
        ("b", job QUEUED 1700000100 "second")];
     Reference.m_max_concurrent := 1;
     Reference.m_issued := 2;
     Reference.m_now := 1700000200 |}.

(** A third unfinished job puts the queue above the limit. *)
Definition busy_manager : Reference.manager :=
  {| Reference.m_jobs :=
       (Reference.m_jobs manager
        ++ [("d", job QUEUED 1700000150 "third")])%list;
     Reference.m_max_concurrent := 1;
     Reference.m_issued := 3;
     Reference.m_now := 1700000200 |}.

Definition files : gmap string (list Byte.byte) :=
  <["audio/a.mp3" := replicate 120 Byte.x2a]>
    (<["audio/c.mp3" := [Byte.x2a]]> ∅).

Definition world : @World Reference.job_management :=
  @mkWorld Reference.job_management files (Some manager).

Definition busy_world : @World Reference.job_management :=
  @mkWorld Reference.job_management files (Some busy_manager).

(** The same files before [initialize_router] has run. *)
Definition cold_world : @World Reference.job_management :=
  @mkWorld Reference.job_management files None.

(** What [os.listdir] reports for the artifact directory of [files]. *)
Definition audio_dir : option (list string) := Some ["a.mp3"; "c.mp3"].

(** Two jobs submitted during the night of 2023-10-29: [old] at 00:30 UTC
    and [new] forty minutes later, at 01:10 UTC; no artifact yet. *)
Definition autumn_manager : Reference.manager :=
  {| Reference.m_jobs :=
       [("old", job QUEUED 1698539400 "first");
        ("new", job QUEUED 1698541800 "second")];
     Reference.m_max_concurrent := 1;
     Reference.m_issued := 2;
     Reference.m_now := 1698541900 |}.

Definition autumn_world : @World Reference.job_management :=
  @mkWorld Reference.job_management ∅ (Some autumn_manager).

(** Another state of the same process: the artifact of [a] has been
    rewritten and the router is not initialised. *)
Definition other_world : @World Reference.job_management :=
  @mkWorld Reference.job_management
    (<["audio/a.mp3" := replicate 100 Byte.x00]> ∅) None.

End Scenario.

(** ** Facts about the Python operations *)

Example strip_ex1 : Py.strip "  Hello world " = "Hello world".
Proof. reflexivity. Qed.

Example strip_ex2 : Py.strip (String "009" (String "010" " ")) = "".
Proof. reflexivity. Qed.

Example str_int_ex : Py.str_int (-42) = "-42" /\ Py.str_int 0 = "0".
Proof. split; reflexivity. Qed.

Example os_path_join_ex :
  Py.os_path_join "audio" "j1.mp3" = "audio/j1.mp3"
  /\ Py.os_path_join "audio/" "j1.mp3" = "audio/j1.mp3"
  /\ Py.os_path_join "audio" "/j1.mp3" = "/j1.mp3".
Proof. repeat split; reflexivity. Qed.

(** The values CPython 3.11 prints for [hash('j1')] under
    [PYTHONHASHSEED] 0, 1 and 2. *)
Example str_hash_ex :
  CPython.str_hash 0 "j1" = 2030896521727671307
  /\ CPython.str_hash 1 "j1" = -6703457656882424411
  /\ CPython.str_hash 2 "j1" = 9092613358733024200.
Proof. repeat split; vm_compute; reflexivity. Qed.

Lemma lstrip_cases (s : string) :
  (Py.lstrip s = "" /\ Py.blank s = true)
  \/ (exists c r, Py.lstrip s = String c r /\ Py.isspace c = false).
Proof.
  induction s as [|c s IH]; simpl.
  - by left.
  - destruct (Py.isspace c) eqn:Hc; simpl.
    + exact IH.
    + right. by exists c, s.
Qed.

Lemma rstrip_nonspace (c : ascii) (r : string) :
  Py.isspace c = false -> Py.rstrip (String c r) <> "".
Proof. intros Hc. simpl. rewrite Hc. by destruct (Py.rstrip r). Qed.

(** [s.strip() == ""] exactly when [s] holds nothing but whitespace. *)
Lemma strip_empty_iff (s : string) : Py.strip s = "" <-> Py.blank s = true.
Proof.
  unfold Py.strip. destruct (lstrip_cases s) as [[Hl Hb]|(c & r & Hl & Hc)].
  - rewrite Hl. simpl. by split.
  - rewrite Hl. split.
    + intros E. by apply rstrip_nonspace in E.
    + intros Hb. exfalso. clear -Hl Hc Hb.
      induction s as [|a s IH]; simpl in *; [done|].
      apply andb_prop in Hb as [Ha Hs]. rewrite Ha in Hl. by apply IH.
Qed.

(** The stripped text neither starts nor ends with whitespace. *)
Lemma rstrip_last (s : string) (c : ascii) (r : string) :
  Py.rstrip s = String c r ->
  exists d u, Py.rstrip s = u +:+ String d "" /\ Py.isspace d = false.
Proof.
  revert c r. induction s as [|a s IH]; intros c r; simpl; [done|].
  destruct (Py.rstrip s) as [|c' r'] eqn:E.
  - destruct (Py.isspace a) eqn:Ha; [done|]. intros _. by exists a, "".
  - intros _. destruct (IH c' r' eq_refl) as (d & u & Hu & Hd).
    exists d, (String a u). by rewrite Hu.
Qed.

Lemma rstrip_head (s : string) (c : ascii) (r : string) :
  Py.rstrip s = String c r -> exists r', s = String c r'.
Proof.
  destruct s as [|a s]; simpl; [done|].
  destruct (Py.rstrip s); [destruct (Py.isspace a)|]; intros [= <- _]; eauto.
Qed.

Lemma strip_ends (s : string) (c : ascii) (r : string) :
  Py.strip s = String c r ->
  Py.isspace c = false
  /\ exists d u, Py.strip s = u +:+ String d "" /\ Py.isspace d = false.
Proof.
  unfold Py.strip. intros E. split; [|by eapply rstrip_last].
  destruct (lstrip_cases s) as [[Hl _]|(c' & r' & Hl & Hc)].
  - by rewrite Hl in E.
  - rewrite Hl in E. apply rstrip_head in E as [r'' [= -> _]]. done.
Qed.

(** Appending, slicing, prefixes and suffixes. *)
Lemma append_cons (c : ascii) (a b : string) :
  String c a +:+ b = String c (a +:+ b).
Proof. reflexivity. Qed.

Lemma append_nil_r (a : string) : a +:+ "" = a.
Proof. induction a as [|c a IH]; [done|]. by rewrite append_cons, IH. Qed.

Lemma append_assoc (a b c : string) : (a +:+ b) +:+ c = a +:+ b +:+ c.
Proof. induction a as [|x a IH]; [done|]. by rewrite !append_cons, IH. Qed.

Lemma length_append (a b : string) :
  String.length (a +:+ b) = (String.length a + String.length b)%nat.
Proof.
  induction a as [|c a IH]; [done|]. rewrite append_cons. simpl. by rewrite IH.
Qed.

Lemma append_inj_r (a b s : string) : a +:+ s = b +:+ s -> a = b.
Proof.
  revert b. induction a as [|x a IH]; intros [|y b] E.
  - done.
  - apply (f_equal String.length) in E. rewrite !length_append in E.
    simpl in E. lia.
  - apply (f_equal String.length) in E. rewrite !length_append in E.
    simpl in E. lia.
  - rewrite !append_cons in E. injection E as -> E. f_equal. by apply IH.
Qed.

Lemma substring_0_length (n : nat) (s : string) :
  (String.length (substring 0 n s) <= n)%nat.
Proof.
  revert s. induction n as [|n IH]; intros [|c s]; simpl; try lia.
  specialize (IH s). lia.
Qed.

Lemma substring_0_all (n : nat) (s : string) :
  (String.length s <= n)%nat -> substring 0 n s = s.
Proof.
  revert s. induction n as [|n IH]; intros [|c s]; simpl; try done; try lia.
  intros Hl. f_equal. apply IH. lia.
Qed.

Lemma substring_0_append (a b : string) :
  substring 0 (String.length a) (a +:+ b) = a.
Proof.
  induction a as [|c a IH]; simpl.
  - by destruct b.
  - by rewrite IH.
Qed.

Lemma substring_skip_append (a b : string) :
  substring (String.length a) (String.length b) (a +:+ b) = b.
Proof.
  induction a as [|c a IH]; simpl; [|done].
  apply substring_0_all. lia.
Qed.

Lemma substring_0_exact (n : nat) (s : string) :
  (n <= String.length s)%nat -> String.length (substring 0 n s) = n.
Proof.
  revert s. induction n as [|n IH]; intros [|c s]; simpl; try done; try lia.
  intros Hl. f_equal. apply IH. lia.
Qed.

Lemma substring_0_prefix (n : nat) (s : string) :
  exists rest, s = substring 0 n s +:+ rest.
Proof.
  revert s. induction n as [|n IH]; intros [|c s]; simpl.
  - by exists "".
  - by exists (String c s).
  - by exists "".
  - destruct (IH s) as [rest E]. exists rest. by rewrite append_cons, <- E.
Qed.

Lemma endswith_append (a p : string) : Py.endswith p (a +:+ p) = true.
Proof.
  unfold Py.endswith. rewrite length_append.
  replace (String.length a + String.length p - String.length p)%nat
    with (String.length a) by lia.
  rewrite substring_skip_append, String.eqb_refl, andb_true_r.
  apply Nat.leb_le. lia.
Qed.

Lemma contains_append (c : ascii) (a b : string) :
  Py.contains c (a +:+ b) = Py.contains c a || Py.contains c b.
Proof.
  induction a as [|x a IH]; [done|].
  rewrite append_cons. simpl. by rewrite IH, orb_assoc.
Qed.

Lemma startswith_slash_cons (c : ascii) (s : string) :
  Py.startswith "/" (String c s) = Ascii.eqb c "/".
Proof.
  unfold Py.startswith.
  change (String.prefix "/" (String c s))
    with (if ascii_dec "/" c then String.prefix "" s else false).
  destruct (ascii_dec "/" c) as [<-|Hne].
  - by destruct s.
  - symmetry. apply Ascii.eqb_neq. congruence.
Qed.

Lemma startswith_slash_contains (s : string) :
  Py.startswith "/" s = true -> Py.contains "/" s = true.
Proof.
  destruct s as [|c s]; [done|]. rewrite startswith_slash_cons.
  cbn [Py.contains]. by intros ->.
Qed.

Lemma startswith_slash_append (a b : string) :
  a <> "" -> Py.startswith "/" (a +:+ b) = Py.startswith "/" a.
Proof.
  destruct a as [|c a]; [done|]. intros _.
  by rewrite append_cons, !startswith_slash_cons.
Qed.

(** A relative name is joined onto the directory, whatever the name. *)
Lemma os_path_join_relative (a b : string) :
  Py.startswith "/" b = false ->
  Py.os_path_join a b = Py.os_path_join a "" +:+ b.
Proof.
  intros Hb. unfold Py.os_path_join. rewrite Hb.
  change (Py.startswith "/" "") with false. cbv iota.
  destruct (a =? "")%string; [done|].
  destruct (substring (String.length a - 1) 1 a =? "/")%string.
  - by rewrite append_nil_r.
  - by rewrite append_nil_r, append_assoc.
Qed.

(** Stripping takes whitespace off both ends and nothing else. *)
Lemma lstrip_split (s : string) :
  exists pre, s = pre +:+ Py.lstrip s /\ Py.blank pre = true.
Proof.
  induction s as [|c s (pre & E & Hb)]; simpl.
  - by exists "".
  - destruct (Py.isspace c) eqn:Hc.
    + exists (String c pre). rewrite append_cons, <- E. simpl. by rewrite Hc.
    + by exists "".
Qed.

Lemma rstrip_split (s : string) :
  exists post, s = Py.rstrip s +:+ post /\ Py.blank post = true.
Proof.
  induction s as [|c s (post & E & Hb)]; simpl.
  - by exists "".
  - destruct (Py.rstrip s) as [|c' r] eqn:Hr.
    + change ("" +:+ post) with post in E. subst s.
      destruct (Py.isspace c) eqn:Hc.
      * exists (String c post). split; [done|]. simpl. by rewrite Hc.
      * by exists post.
    + exists post. by rewrite append_cons, <- E.
Qed.

Lemma strip_split (s : string) :
  exists pre post,
    s = pre +:+ Py.strip s +:+ post
    /\ Py.blank pre = true /\ Py.blank post = true.
Proof.
  destruct (lstrip_split s) as (pre & E1 & Hpre).
  destruct (rstrip_split (Py.lstrip s)) as (post & E2 & Hpost).
  exists pre, post. unfold Py.strip. by rewrite <- E2, <- E1.
Qed.

Lemma lstrip_nonspace (c : ascii) (r : string) :
  Py.isspace c = false -> Py.lstrip (String c r) = String c r.
Proof. intros Hc. simpl. by rewrite Hc. Qed.

Lemma rstrip_idem (s : string) : Py.rstrip (Py.rstrip s) = Py.rstrip s.
Proof.
  induction s as [|c s IH]; simpl; [done|].
  destruct (Py.rstrip s) as [|c' r] eqn:Hr.
  - destruct (Py.isspace c) eqn:Hc; simpl; [done|]. by rewrite Hc.
  - change (Py.rstrip (String c (String c' r)))
      with (match Py.rstrip (String c' r) with
            | "" => if Py.isspace c then "" else String c ""
            | r' => String c r'
            end).
    by rewrite IH.
Qed.

Lemma strip_idem (s : string) : Py.strip (Py.strip s) = Py.strip s.
Proof.
  destruct (Py.strip s) as [|c r] eqn:E; [done|].
  destruct (strip_ends s c r E) as [Hc _].
  unfold Py.strip. rewrite (lstrip_nonspace c r Hc).
  rewrite <- E. unfold Py.strip. apply rstrip_idem.
Qed.

(** String comparison is a total preorder. *)
Lemma string_leb_trans (a b c : string) :
  String.leb a b = true -> String.leb b c = true -> String.leb a c = true.
Proof.
  unfold String.leb. revert b c.
  induction a as [|x a IH]; intros [|y b] [|z c]; simpl; try done.
  unfold Ascii.compare.
  destruct (N.compare_spec (N_of_ascii x) (N_of_ascii y)) as [Exy|Lxy|Gxy],
           (N.compare_spec (N_of_ascii y) (N_of_ascii z)) as [Eyz|Lyz|Gyz],
           (N.compare_spec (N_of_ascii x) (N_of_ascii z)) as [Exz|Lxz|Gxz];
    try done; try lia.
  apply IH.
Qed.

Lemma string_ltb_false_leb (a b : string) :
  String.ltb a b = false -> String.leb b a = true.
Proof.
  unfold String.ltb, String.leb. rewrite (String.compare_antisym b a).
  by destruct (String.compare a b).
Qed.

Lemma string_ltb_leb (a b : string) :
  String.ltb a b = true -> String.leb a b = true.
Proof. unfold String.ltb, String.leb. by destruct (String.compare a b). Qed.

(** ** Facts about sorting *)

Section Sorting.
Context {A : Type} (key : A -> string).

Let R (a b : A) : Prop := String.leb (key b) (key a) = true.

Lemma insert_reverse_perm (x : A) (l : list A) :
  insert_reverse key x l ≡ₚ x :: l.
Proof.
  induction l as [|y l IH]; simpl; [done|].
  destruct (String.ltb (key x) (key y)); [|done].
  rewrite IH. apply Permutation_swap.
Qed.

Lemma sort_reverse_perm (l : list A) : sort_reverse key l ≡ₚ l.
Proof.
  induction l as [|x l IH]; simpl; [done|].
  unfold sort_reverse in *. simpl. by rewrite insert_reverse_perm, IH.
Qed.

Lemma insert_reverse_sorted (x : A) (l : list A) :
  StronglySorted R l -> StronglySorted R (insert_reverse key x l).
Proof.
  induction l as [|y l IH]; simpl; intros Hl.
  - by repeat constructor.
  - apply StronglySorted_inv in Hl as [Hl Hy].
    destruct (String.ltb (key x) (key y)) eqn:Hxy.
    + constructor; [by apply IH|].
      rewrite insert_reverse_perm. constructor; [|done].
      by apply string_ltb_leb.
    + apply string_ltb_false_leb in Hxy.
      constructor; [by constructor|]. constructor; [done|].
      eapply Forall_impl; [exact Hy|]. intros z Hz.
      by apply string_leb_trans with (key y).
Qed.

Lemma sort_reverse_sorted (l : list A) :
  StronglySorted R (sort_reverse key l).
Proof.
  induction l as [|x l IH]; simpl; [constructor|].
  by apply insert_reverse_sorted.
Qed.

Lemma StronglySorted_take (n : nat) (l : list A) :
  StronglySorted R l -> StronglySorted R (take n l).
Proof.
  intros Hl. rewrite <- (take_drop n l) in Hl.
  by apply StronglySorted_app_1_l in Hl.
Qed.

(** The sort is stable: entries that share a key keep their order. *)
Lemma insert_reverse_filter (k : string) (x : A) (l : list A) :
  StronglySorted R l ->
  filter (fun y => key y = k) (insert_reverse key x l)
  = filter (fun y => key y = k) (x :: l).
Proof.
  induction l as [|y l IH]; simpl; intros Hl; [done|].
  apply StronglySorted_inv in Hl as [Hl Hy].
  destruct (String.ltb (key x) (key y)) eqn:Hxy; [|done].
  rewrite !filter_cons. rewrite (IH Hl), filter_cons.
  destruct (decide (key y = k)) as [Ey|]; [|done].
  destruct (decide (key x = k)) as [Ex|]; [|done].
  rewrite Ex, Ey in Hxy. unfold String.ltb in Hxy.
  pose proof (String.compare_antisym k k) as Hc.
  by destruct (String.compare k k).
Qed.

Lemma sort_reverse_stable (k : string) (l : list A) :
  filter (fun y => key y = k) (sort_reverse key l)
  = filter (fun y => key y = k) l.
Proof.
  induction l as [|x l IH]; [done|].
  change (sort_reverse key (x :: l))
    with (insert_reverse key x (sort_reverse key l)).
  rewrite insert_reverse_filter by apply sort_reverse_sorted.
  by rewrite !filter_cons, IH.
Qed.

End Sorting.

(** ** Properties of the routes *)

Ltac run :=
  unfold tts_endpoint, get_job_status, get_audio, delete_audio, get_all_jobs,
    except_HTTPException_Exception, except_Exception, bind, gets, ret, raise,
    job_manager_attr, call_add_job, read_bytes, os_remove;
  simpl.

Section Properties.
Context `{PyRuntime} `{JobManagement} `{Storage}.

Lemma os_path_exists_Some (path : string) (w : World) data :
  fs w !! path = Some data -> os_path_exists path w = true.
Proof. intros E. unfold os_path_exists. by rewrite E. Qed.

Lemma os_path_exists_None (path : string) (w : World) :
  fs w !! path = None -> os_path_exists path w = false.
Proof.
  intros E. unfold os_path_exists. rewrite E.
  apply bool_decide_eq_false. by intros [? ?].
Qed.

Lemma os_path_exists_false (path : string) (w : World) :
  os_path_exists path w = false -> fs w !! path = None.
Proof.
  unfold os_path_exists. intros E%bool_decide_eq_false.
  by apply eq_None_not_Some.
Qed.

Lemma active_jobs_loop_elem (items : dict JobInfo.t) (w : World) e :
  e ∈ active_jobs_loop items w <->
  exists job_id job_info,
    (job_id, job_info) ∈ items
    /\ os_path_exists (audio_path job_id) w = false
    /\ e = {| JobEntry.job_id := job_id;
              JobEntry.status := JobStatus_value (JobInfo.status job_info);
              JobEntry.created_at :=
                Some (fromtimestamp_isoformat (JobInfo.created_at job_info));
              JobEntry.audio_exists := false;
              JobEntry.text :=
                Some (text_preview
                        (TTSRequest.text (JobInfo.request job_info))) |}.
Proof.
  induction items as [|[k v] items IH]; simpl.
  - split; [by intros ?%elem_of_nil|]. by intros (? & ? & ?%elem_of_nil & _).
  - destruct (os_path_exists (audio_path k) w) eqn:Hk.
    + rewrite IH. split.
      * intros (j & i & Hin & Hj & ->). exists j, i. by rewrite elem_of_cons; auto.
      * intros (j & i & Hin & Hj & ->). exists j, i.
        apply elem_of_cons in Hin as [[= -> ->]|Hin]; [congruence|done].
    + rewrite elem_of_cons, IH. split.
      * intros [->|(j & i & Hin & Hj & ->)].
        -- exists k, v. by rewrite elem_of_cons; auto.
        -- exists j, i. by rewrite elem_of_cons; auto.
      * intros (j & i & Hin & Hj & ->).
        apply elem_of_cons in Hin as [[= -> ->]|Hin]; [by left|].
        right. by exists j, i.
Qed.

(** Whatever the artifact store and the job table hold, the listing is
    the first 50 entries of the merged completed and active jobs put in
    order of their [created_at] text, largest first: it has at most 50
    entries and each entry's [created_at] text is at least that of every
    later one.  This is an order of texts, not of instants. *)
Theorem get_all_jobs_capped_newest_first (w : World) :
  exists all_jobs,
    all_jobs ≡ₚ load_jobs (fs w) ++ active_jobs w
    /\ StronglySorted newest_first all_jobs
    /\ get_all_jobs w = (Return (take 50 all_jobs), w)
    /\ (length (take 50 all_jobs) <= 50)%nat
    /\ StronglySorted newest_first (take 50 all_jobs).
Proof.
  exists (sort_reverse sort_key (load_jobs (fs w) ++ active_jobs w)).
  split; [apply sort_reverse_perm|].
  split; [apply (sort_reverse_sorted sort_key)|].
  split; [done|].
  split; [rewrite length_take; lia|].
  apply (StronglySorted_take sort_key), sort_reverse_sorted.
Qed.

(** C7. In the merged listing the active part holds exactly the jobs of
    the in-memory table that have no artifact file, so a job with an
    artifact is left out of it; and as the completed part lists only
    jobs whose artifact is in the store, no job_id is both a completed
    and an active entry. *)
Theorem active_jobs_exclude_artifacts (w : World) :
  (forall m job_id job_info,
      job_manager w = Some m ->
      (job_id, job_info) ∈ jobs m ->
      (exists e, e ∈ active_jobs w /\ JobEntry.job_id e = job_id)
      <-> os_path_exists (audio_path job_id) w = false)
  /\ (forall e, e ∈ active_jobs w ->
        os_path_exists (audio_path (JobEntry.job_id e)) w = false)
  /\ (load_jobs_scans_artifacts ->
      forall c a,
        c ∈ load_jobs (fs w) -> a ∈ active_jobs w ->
        JobEntry.job_id c <> JobEntry.job_id a)
  /\ (forall l w',
        get_all_jobs w = (Return l, w') ->
        forall e, e ∈ l -> e ∈ load_jobs (fs w) \/ e ∈ active_jobs w).
Proof.
  assert (Hact : forall e, e ∈ active_jobs w ->
            os_path_exists (audio_path (JobEntry.job_id e)) w = false).
  { intros e. unfold active_jobs. destruct (job_manager w) as [m|].
    - by intros (j & i & _ & Hj & ->)%active_jobs_loop_elem.
    - by intros ?%elem_of_nil. }
  split; [|split; [exact Hact|split]].
  - intros m job_id job_info Hm Hin. split.
    + intros (e & He & <-). by apply Hact.
    + intros Hno. unfold active_jobs. rewrite Hm. eexists. split.
      * apply active_jobs_loop_elem. by exists job_id, job_info.
      * done.
  - intros Hscan c a Hc Ha E. apply Hscan in Hc as [data Hc].
    apply Hact in Ha. rewrite <- E in Ha.
    by rewrite (os_path_exists_Some _ _ _ Hc) in Ha.
  - intros l w'. run. intros [= <- _] e He.
    apply subseteq_take in He. rewrite sort_reverse_perm in He.
    by apply elem_of_app in He.
Qed.

(** C5. A submission whose text is absent or empty is answered 400
    "Text is required"; nothing is returned and the world (the job
    table and the queue with it) is left as it was. *)
Theorem tts_endpoint_empty_text (request : TTSRequestModel.t) (w : World) :
  TTSRequestModel.text request = None
  \/ TTSRequestModel.text request = Some "" ->
  tts_endpoint request w
  = (Raise (HTTPException 400 [("message", VStr "Text is required")]), w).
Proof. intros [E|E]; run; by rewrite E. Qed.

(** C1, for a text that is not empty once trimmed. For such a
    submission, with the job manager in place: when [get_queue_size()] is above
    [max_concurrent * 2] the answer is 503 and the world is unchanged;
    otherwise the job is handed to [add_job] and its job_id is
    returned. *)
Theorem tts_endpoint_admission (request : TTSRequestModel.t)
    (text : string) (w : World) (m : JobManager) :
  TTSRequestModel.text request = Some text ->
  Py.strip text <> "" ->
  job_manager w = Some m ->
  let job :=
    {| TTSRequest.text := Py.strip text;
       TTSRequest.voice := TTSRequestModel.voice request;
       TTSRequest.pitch := TTSRequestModel.pitch request;
       TTSRequest.speed := TTSRequestModel.speed request;
       TTSRequest.volume := TTSRequestModel.volume request |} in
  (get_queue_size m > max_concurrent m * 2 ->
   tts_endpoint request w
   = (Raise (HTTPException 503
        [("message",
          VStr "Server is currently at capacity. Please try again later.");
         ("queue_size", VInt (get_queue_size m))]), w))
  /\ (get_queue_size m <= max_concurrent m * 2 ->
      tts_endpoint request w
      = (Return {| TTSResponseModel.job_id := (add_job job m).1 |},
         {| fs := fs w; job_manager := Some (add_job job m).2 |})).
Proof.
  intros Ht Hs Hm job. run. rewrite Ht.
  destruct (String.eqb_spec text "") as [->|_]; [done|].
  destruct (String.eqb_spec (Py.strip text) "") as [E|_]; [done|].
  simpl. repeat (rewrite Hm; simpl). split; intros Hq.
  - apply Z.gt_lt, Z.gtb_lt in Hq. rewrite Hq. by rewrite Hm.
  - destruct (get_queue_size m >? max_concurrent m * 2)%Z eqn:Hgt.
    + apply Z.gtb_lt in Hgt. lia.
    + rewrite Hm. fold job. by destruct (add_job job m).
Qed.

(** C10. A text that is not empty but holds only whitespace is answered
    400 and the world is unchanged.  Whenever a submission is admitted,
    the request handed to [add_job] carries the trimmed text and not the
    raw one: the raw text is a run of whitespace, the trimmed text, and a
    run of whitespace; the trimmed text is not empty and neither starts
    nor ends with whitespace, so it differs from the raw text as soon as
    there is whitespace around it; and it is what the record of the
    returned job_id stores. *)
Theorem tts_endpoint_trims_text (request : TTSRequestModel.t) (w : World) :
  (forall text,
      TTSRequestModel.text request = Some text ->
      text <> "" -> Py.blank text = true ->
      tts_endpoint request w
      = (Raise (HTTPException 400 [("message", VStr "Text is required")]),
         w))
  /\ (forall response w',
        tts_endpoint request w = (Return response, w') ->
        exists text m,
          TTSRequestModel.text request = Some text
          /\ job_manager w = Some m
          /\ (exists pre post,
                text = pre +:+ Py.strip text +:+ post
                /\ Py.blank pre = true /\ Py.blank post = true
                /\ (pre <> "" \/ post <> "" -> Py.strip text <> text))
          /\ (exists c core d front,
                Py.strip text = String c core
                /\ Py.isspace c = false
                /\ Py.strip text = front +:+ String d ""
                /\ Py.isspace d = false)
          /\ let job :=
               {| TTSRequest.text := Py.strip text;
                  TTSRequest.voice := TTSRequestModel.voice request;
                  TTSRequest.pitch := TTSRequestModel.pitch request;
                  TTSRequest.speed := TTSRequestModel.speed request;
                  TTSRequest.volume := TTSRequestModel.volume request |} in
             TTSResponseModel.job_id response = (add_job job m).1
             /\ job_manager w' = Some (add_job job m).2
             /\ (add_job_records_request ->
                 exists info,
                   dict_get (TTSResponseModel.job_id response)
                     (jobs (add_job job m).2) = Some info
                   /\ TTSRequest.text (JobInfo.request info)
                      = Py.strip text)).
Proof.
  split.
  - intros text Ht _ Hb%strip_empty_iff. run. rewrite Ht, Hb.
    by rewrite orb_true_r.
  - intros response w'. run.
    destruct (TTSRequestModel.text request) as [text|]; [|done].
    destruct (String.eqb_spec text "") as [->|_]; [done|].
    destruct (String.eqb_spec (Py.strip text) "") as [|Hcore]; [done|].
    simpl. destruct (job_manager w) as [m|] eqn:Hm; [|done].
    simpl. repeat (rewrite Hm; simpl).
    destruct (get_queue_size m >? max_concurrent m * 2)%Z; [by rewrite Hm|].
    rewrite Hm.
    match goal with
    | |- context [add_job ?j m] => set (job := j)
    end.
    destruct (add_job job m) as [job_id m'] eqn:Ha.
    intros [= <- <-]. exists text, m. split; [done|]. split; [done|].
    split; [|split].
    + destruct (strip_split text) as (pre & post & Hsplit & Hpre & Hpost).
      exists pre, post. split; [done|]. split; [done|]. split; [done|].
      intros Hout Hsame.
      apply (f_equal String.length) in Hsplit.
      rewrite !length_append, Hsame in Hsplit.
      destruct pre, post; simpl in Hsplit; try lia. by destruct Hout.
    + destruct (Py.strip text) as [|c core] eqn:Hs; [done|].
      destruct (strip_ends text c core Hs) as (Hc & d & front & Hd & Hdsp).
      rewrite Hs in Hd. by exists c, core, d, front.
    + simpl. fold job. rewrite Ha. simpl. split; [done|]. split; [done|].
      intros Hrec. destruct (Hrec job m) as (info & Hi & Hr & _).
      rewrite Ha in Hi. exists info. split; [done|]. by rewrite Hr.
Qed.

(** C2. The status lookup looks at the artifact store first: with an
    artifact file the answer is "completed", whatever the in-memory
    record says; without one the status of the in-memory record is
    reported, and 404 when there is no record. *)
Theorem get_job_status_artifact_first (job_id : string) (w : World) :
  (forall data,
      fs w !! audio_path job_id = Some data ->
      get_job_status job_id w
      = (Return {| JobStatusResponse.job_id := job_id;
                   JobStatusResponse.status := "completed";
                   JobStatusResponse.message := "Audio is ready" |}, w))
  /\ (forall m job_info,
        fs w !! audio_path job_id = None ->
        job_manager w = Some m ->
        dict_get job_id (jobs m) = Some job_info ->
        get_job_status job_id w
        = (Return {| JobStatusResponse.job_id := job_id;
                     JobStatusResponse.status :=
                       JobStatus_value (JobInfo.status job_info);
                     JobStatusResponse.message :=
                       if decide (JobInfo.status job_info = PROCESSING)
                       then "Audio is being processed"
                       else "Audio is ready" |}, w))
  /\ (forall m,
        fs w !! audio_path job_id = None ->
        job_manager w = Some m ->
        dict_get job_id (jobs m) = None ->
        get_job_status job_id w
        = (Raise (HTTPException 404
                    [("message", VStr ("Job " +:+ job_id +:+ " not found"));
                     ("job_id", VStr job_id)]), w)).
Proof.
  split; [|split].
  - intros data E%os_path_exists_Some. run. by rewrite E.
  - intros m job_info E%os_path_exists_None Hm Hj. run.
    rewrite E. simpl. rewrite Hm. simpl.
    unfold JobManager_get_job_status. by rewrite Hj.
  - intros m E%os_path_exists_None Hm Hj. run.
    rewrite E. simpl. rewrite Hm. simpl.
    unfold JobManager_get_job_status. by rewrite Hj.
Qed.

(** C3. The audio fetch answers 404 when there is no artifact file, 422
    when the file holds fewer than 100 bytes (none included), and
    otherwise the bytes of the file with [Cache-Control: public,
    max-age=86400] and an [ETag]. *)
Theorem get_audio_fetch (job_id : string) (w : World) :
  (fs w !! audio_path job_id = None ->
   get_audio job_id w
   = (Raise (HTTPException 404
               [("message",
                 VStr ("Audio for job " +:+ job_id
                       +:+ " not found or not ready yet"));
                ("job_id", VStr job_id)]), w))
  /\ (forall data,
        fs w !! audio_path job_id = Some data ->
        (length data < 100)%nat ->
        get_audio job_id w
        = (Raise (HTTPException 422
                    [("message",
                      VStr ("Audio file appears to be incomplete for job "
                            +:+ job_id));
                     ("job_id", VStr job_id)]), w))
  /\ (forall data,
        fs w !! audio_path job_id = Some data ->
        (100 <= length data)%nat ->
        exists response,
          get_audio job_id w = (Return response, w)
          /\ Response.content response = data
          /\ Response.media_type response = "audio/mpeg"
          /\ Response.headers response !! "Cache-Control"
             = Some "public, max-age=86400"
          /\ Response.headers response !! "ETag" = Some (etag job_id)).
Proof.
  split; [|split].
  - intros E%os_path_exists_None. run. by rewrite E.
  - intros data E Hlen. run. rewrite (os_path_exists_Some _ _ _ E).
    simpl. rewrite E. simpl.
    assert ((Z.of_nat (length data) <? 100)%Z = true) as ->
      by (apply Z.ltb_lt; lia).
    by rewrite orb_true_r.
  - intros data E Hlen. run. rewrite (os_path_exists_Some _ _ _ E).
    simpl. rewrite E. simpl.
    assert ((Z.of_nat (length data) <? 100)%Z = false) as ->
      by (apply Z.ltb_ge; lia).
    rewrite bool_decide_eq_false_2 by (by destruct data; [simpl in Hlen; lia|]).
    simpl. eexists. split; [done|]. simpl.
    split; [done|]. split; [done|]. split.
    + rewrite lookup_insert_ne by done. by rewrite lookup_insert_eq.
    + by rewrite lookup_insert_eq.
Qed.

(** C9. For an artifact file of fewer than 100 bytes the status lookup
    answers "completed" while the audio fetch answers 422: the two
    handlers disagree about such an artifact. *)
Theorem status_completed_but_audio_incomplete (job_id : string) (w : World)
    (data : list Byte.byte) :
  fs w !! audio_path job_id = Some data ->
  (length data < 100)%nat ->
  get_job_status job_id w
  = (Return {| JobStatusResponse.job_id := job_id;
               JobStatusResponse.status := "completed";
               JobStatusResponse.message := "Audio is ready" |}, w)
  /\ get_audio job_id w
     = (Raise (HTTPException 422
                 [("message",
                   VStr ("Audio file appears to be incomplete for job "
                         +:+ job_id));
                  ("job_id", VStr job_id)]), w).
Proof.
  intros E Hlen. split.
  - run. by rewrite (os_path_exists_Some _ _ _ E).
  - run. rewrite (os_path_exists_Some _ _ _ E). simpl. rewrite E. simpl.
    assert ((Z.of_nat (length data) <? 100)%Z = true) as ->
      by (apply Z.ltb_lt; lia).
    by rewrite orb_true_r.
Qed.

(** C6. Deleting answers 404 and changes nothing when there is no
    artifact file.  With a file (and the job manager in place) it
    succeeds: the file is removed, and when the job table has a record
    of the job_id a [cleanup_job] task is appended to the background
    tasks; the table itself is not touched by the handler, only by the
    task when it runs afterwards. *)
Theorem delete_audio_removes_and_defers (job_id : string)
    (background_tasks : list task) (w : World) :
  (fs w !! audio_path job_id = None ->
   delete_audio job_id background_tasks w
   = (Raise (HTTPException 404
               [("message",
                 VStr ("Audio for job " +:+ job_id +:+ " not found"));
                ("job_id", VStr job_id)]), w))
  /\ (forall data m,
        fs w !! audio_path job_id = Some data ->
        job_manager w = Some m ->
        let w' := {| fs := delete (audio_path job_id) (fs w);
                     job_manager := Some m |} in
        delete_audio job_id background_tasks w
        = (Return
             ([("message",
                VStr ("Audio for job " +:+ job_id
                      +:+ " deleted successfully"))],
              if dict_contains job_id (jobs m)
              then (background_tasks ++ [cleanup_job_task job_id])%list
              else background_tasks),
           w')
        /\ fs w' !! audio_path job_id = None
        /\ job_manager (run_task (cleanup_job_task job_id) w')
           = Some (cleanup_job job_id m)).
Proof.
  split.
  - intros E%os_path_exists_None. run. by rewrite E.
  - intros data m E Hm w'. split; [|split].
    + run. rewrite (os_path_exists_Some _ _ _ E). simpl. rewrite E. simpl.
      by rewrite Hm.
    + apply lookup_delete_eq.
    + done.
Qed.

(** Within one interpreter process the validator tag is a function of
    the job_id alone: any two successful fetches of one
    job_id carry the same [ETag], the quoted [hash(job_id)], whatever
    the artifact holds and whatever else the world looks like. *)
Theorem etag_stable_within_process (job_id : string) (w1 w2 w1' w2' : World)
    (r1 r2 : Response.t) :
  get_audio job_id w1 = (Return r1, w1') ->
  get_audio job_id w2 = (Return r2, w2') ->
  Response.headers r1 !! "ETag" = Some (etag job_id)
  /\ Response.headers r2 !! "ETag" = Response.headers r1 !! "ETag".
Proof.
  assert (Hone : forall w w' r, get_audio job_id w = (Return r, w') ->
            Response.headers r !! "ETag" = Some (etag job_id)).
  { intros w w' r. run.
    destruct (os_path_exists (audio_path job_id) w); [|done]. simpl.
    destruct (fs w !! audio_path job_id) as [data|]; [|done].
    destruct (bool_decide (data = []) || (Z.of_nat (length data) <? 100)%Z);
      [done|].
    intros [= <- _]. simpl. by rewrite lookup_insert_eq. }
  intros E1 E2. rewrite (Hone _ _ _ E1), (Hone _ _ _ E2). done.
Qed.

End Properties.

(** ** What each handler can answer *)

Section Outcomes.
Context `{PyRuntime} `{JobManagement} `{Storage}.

Lemma strip_eqb_empty (text : string) :
  ((text =? "")%string || (Py.strip text =? "")%string)
  = (Py.strip text =? "")%string.
Proof. destruct (String.eqb_spec text "") as [->|]; [done|done]. Qed.

Lemma tts_endpoint_outcome (request : TTSRequestModel.t) (w : World) :
  ((TTSRequestModel.text request = None
    \/ exists text,
         TTSRequestModel.text request = Some text /\ Py.strip text = "")
   /\ tts_endpoint request w
      = (Raise (HTTPException 400 [("message", VStr "Text is required")]), w))
  \/ exists text,
       TTSRequestModel.text request = Some text
       /\ Py.strip text <> ""
       /\ ((job_manager w = None
            /\ tts_endpoint request w
               = (Raise (HTTPException 500
                    [("message",
                      VStr ("Internal server error: "
                            +:+ NoneType_has_no "get_queue_size"));
                     ("traceback", VTraceback)]), w))
           \/ exists m,
                job_manager w = Some m
                /\ ((get_queue_size m > max_concurrent m * 2
                     /\ tts_endpoint request w
                        = (Raise (HTTPException 503
                             [("message",
                               VStr "Server is currently at capacity. Please try again later.");
                              ("queue_size", VInt (get_queue_size m))]), w))
                    \/ (get_queue_size m <= max_concurrent m * 2
                        /\ tts_endpoint request w
                           = (Return
                                {| TTSResponseModel.job_id :=
                                     (add_job (submitted_request request text)
                                        m).1 |},
                              {| fs := fs w;
                                 job_manager :=
                                   Some (add_job
                                           (submitted_request request text)
                                           m).2 |})))).
Proof.
  run. destruct (TTSRequestModel.text request) as [text|]; [|left; auto].
  rewrite strip_eqb_empty.
  destruct (String.eqb_spec (Py.strip text) "") as [E|E].
  { left. split; [right; by exists text|done]. }
  right. exists text. split; [done|]. split; [done|]. simpl.
  destruct (job_manager w) as [m|] eqn:Hm; [|by left].
  right. exists m. split; [done|]. simpl. repeat (rewrite Hm; simpl).
  destruct (get_queue_size m >? max_concurrent m * 2)%Z eqn:Hq.
  - left. apply Z.gtb_lt in Hq. split; [lia|]. by rewrite Hm.
  - right. split; [pose proof (Zgt_cases (get_queue_size m)
                                 (max_concurrent m * 2)) as Hc;
                   rewrite Hq in Hc; exact Hc|].
    rewrite Hm. fold (submitted_request request text).
    by destruct (add_job (submitted_request request text) m).
Qed.

Lemma get_job_status_outcome (job_id : string) (w : World) :
  (exists data,
      fs w !! audio_path job_id = Some data
      /\ get_job_status job_id w
         = (Return {| JobStatusResponse.job_id := job_id;
                      JobStatusResponse.status := "completed";
                      JobStatusResponse.message := "Audio is ready" |}, w))
  \/ (fs w !! audio_path job_id = None
      /\ ((job_manager w = None
           /\ get_job_status job_id w
              = (Raise (HTTPException 500
                   [("message",
                     VStr ("Error checking job status: "
                           +:+ NoneType_has_no "get_job_status"));
                    ("traceback", VTraceback)]), w))
          \/ (exists m job_info,
                job_manager w = Some m
                /\ dict_get job_id (jobs m) = Some job_info
                /\ get_job_status job_id w
                   = (Return
                        {| JobStatusResponse.job_id := job_id;
                           JobStatusResponse.status :=
                             JobStatus_value (JobInfo.status job_info);
                           JobStatusResponse.message :=
                             if decide (JobInfo.status job_info = PROCESSING)
                             then "Audio is being processed"
                             else "Audio is ready" |}, w))
          \/ (exists m,
                job_manager w = Some m
                /\ dict_get job_id (jobs m) = None
                /\ get_job_status job_id w
                   = (Raise (HTTPException 404
                        [("message",
                          VStr ("Job " +:+ job_id +:+ " not found"));
                         ("job_id", VStr job_id)]), w)))).
Proof.
  destruct (fs w !! audio_path job_id) as [data|] eqn:E.
  - left. exists data. split; [done|]. run.
    by rewrite (os_path_exists_Some _ _ _ E).
  - right. split; [done|]. run. rewrite (os_path_exists_None _ _ E). simpl.
    destruct (job_manager w) as [m|] eqn:Hm; [|by left].
    right. simpl. unfold JobManager_get_job_status.
    destruct (dict_get job_id (jobs m)) as [job_info|] eqn:Hj; simpl.
    + left. by exists m, job_info.
    + right. by exists m.
Qed.

Lemma get_audio_outcome (job_id : string) (w : World) :
  (fs w !! audio_path job_id = None
   /\ get_audio job_id w
      = (Raise (HTTPException 404
           [("message",
             VStr ("Audio for job " +:+ job_id
                   +:+ " not found or not ready yet"));
            ("job_id", VStr job_id)]), w))
  \/ exists data,
       fs w !! audio_path job_id = Some data
       /\ (((length data < 100)%nat
            /\ get_audio job_id w
               = (Raise (HTTPException 422
                    [("message",
                      VStr ("Audio file appears to be incomplete for job "
                            +:+ job_id));
                     ("job_id", VStr job_id)]), w))
           \/ ((100 <= length data)%nat
               /\ get_audio job_id w
                  = (Return
                       {| Response.content := data;
                          Response.media_type := "audio/mpeg";
                          Response.headers :=
                            <["ETag" := etag job_id]>
                              (<["Cache-Control" := "public, max-age=86400"]>
                                 ∅) |}, w))).
Proof.
  destruct (fs w !! audio_path job_id) as [data|] eqn:E.
  - right. exists data. split; [done|]. run.
    rewrite (os_path_exists_Some _ _ _ E). simpl. rewrite E. simpl.
    destruct (Z.of_nat (length data) <? 100)%Z eqn:Hl.
    + left. apply Z.ltb_lt in Hl. split; [lia|]. by rewrite orb_true_r.
    + right. apply Z.ltb_ge in Hl. split; [lia|].
      rewrite bool_decide_eq_false_2; [done|].
      intros ->. simpl in Hl. lia.
  - left. split; [done|]. run. by rewrite (os_path_exists_None _ _ E).
Qed.

Lemma delete_audio_outcome (job_id : string) (background_tasks : list task)
    (w : World) :
  (fs w !! audio_path job_id = None
   /\ delete_audio job_id background_tasks w
      = (Raise (HTTPException 404
           [("message", VStr ("Audio for job " +:+ job_id +:+ " not found"));
            ("job_id", VStr job_id)]), w))
  \/ exists data,
       fs w !! audio_path job_id = Some data
       /\ ((job_manager w = None
            /\ delete_audio job_id background_tasks w
               = (Raise (HTTPException 500
                    [("message",
                      VStr ("Failed to delete audio: "
                            +:+ NoneType_has_no "jobs"));
                     ("traceback", VTraceback)]),
                  {| fs := delete (audio_path job_id) (fs w);
                     job_manager := None |}))
           \/ exists m,
                job_manager w = Some m
                /\ delete_audio job_id background_tasks w
                   = (Return
                        ([("message",
                           VStr ("Audio for job " +:+ job_id
                                 +:+ " deleted successfully"))],
                         if dict_contains job_id (jobs m)
                         then (background_tasks
                               ++ [cleanup_job_task job_id])%list
                         else background_tasks),
                      {| fs := delete (audio_path job_id) (fs w);
                         job_manager := Some m |})).
Proof.
  destruct (fs w !! audio_path job_id) as [data|] eqn:E.
  - right. exists data. split; [done|]. run.
    rewrite (os_path_exists_Some _ _ _ E). simpl. rewrite E. simpl.
    destruct (job_manager w) as [m|] eqn:Hm; [|by left].
    right. by exists m.
  - left. split; [done|]. run. by rewrite (os_path_exists_None _ _ E).
Qed.

Lemma get_all_jobs_outcome (w : World) :
  get_all_jobs w
  = (Return (take 50 (sort_reverse sort_key
                        (load_jobs (fs w) ++ active_jobs w))), w).
Proof. done. Qed.

Lemma health_check_outcome (audio_dir : option (list string)) (w : World) :
  health_check audio_dir w
  = (Return
       {| HealthStatus.status := "healthy";
          HealthStatus.audio_files_count :=
            match audio_dir with
            | Some entries =>
                Z.of_nat
                  (length (filter (fun f => Py.endswith ".mp3" f = true)
                             entries))
            | None => 0
            end;
          HealthStatus.active_jobs_size :=
            match job_manager w with
            | Some m => get_queue_size m
            | None => 0
            end;
          HealthStatus.memory_jobs_count :=
            match job_manager w with
            | Some m => Z.of_nat (length (jobs m))
            | None => 0
            end;
          HealthStatus.message := "System is operational";
          HealthStatus.traceback := None |}, w).
Proof. done. Qed.

End Outcomes.

(** ** Further properties of the routes *)

Section Further.
Context `{PyRuntime} `{JobManagement} `{Storage}.

(** X1. No handler lets a plain exception out: whatever the input and the
    state, an error of the submission is a 400, 500 or 503, of the status
    lookup a 404 or 500, of the audio fetch a 404, 422 or 500, and of the
    deletion a 404 or 500. *)
Theorem handlers_raise_only_HTTPException :
  (forall request w e w',
      tts_endpoint request w = (Raise e, w') ->
      exists detail,
        e = HTTPException 400 detail \/ e = HTTPException 500 detail
        \/ e = HTTPException 503 detail)
  /\ (forall job_id w e w',
        get_job_status job_id w = (Raise e, w') ->
        exists detail,
          e = HTTPException 404 detail \/ e = HTTPException 500 detail)
  /\ (forall job_id w e w',
        get_audio job_id w = (Raise e, w') ->
        exists detail,
          e = HTTPException 404 detail \/ e = HTTPException 422 detail
          \/ e = HTTPException 500 detail)
  /\ (forall job_id background_tasks w e w',
        delete_audio job_id background_tasks w = (Raise e, w') ->
        exists detail,
          e = HTTPException 404 detail \/ e = HTTPException 500 detail).
Proof.
  split; [|split; [|split]].
  - intros request w e w' E.
    destruct (tts_endpoint_outcome request w)
      as [[_ R]|(text & _ & _ & [[_ R]|(m & _ & [[_ R]|[_ R]])])];
      rewrite R in E;
      first [discriminate E | injection E as <- _; eauto 6].
  - intros job_id w e w' E.
    destruct (get_job_status_outcome job_id w)
      as [(data & _ & R)|[_ [[_ R]|[(m & i & _ & _ & R)|(m & _ & _ & R)]]]];
      rewrite R in E;
      first [discriminate E | injection E as <- _; eauto 6].
  - intros job_id w e w' E.
    destruct (get_audio_outcome job_id w)
      as [[_ R]|(data & _ & [[_ R]|[_ R]])];
      rewrite R in E;
      first [discriminate E | injection E as <- _; eauto 6].
  - intros job_id background_tasks w e w' E.
    destruct (delete_audio_outcome job_id background_tasks w)
      as [[_ R]|(data & _ & [[_ R]|(m & _ & R)])];
      rewrite R in E;
      first [discriminate E | injection E as <- _; eauto 6].
Qed.

(** X3. The status lookup, the audio fetch, the listing and the health
    check only read: whatever they answer, the file system and the job
    manager are as before. *)
Theorem lookups_leave_world_unchanged (w : World) :
  (forall job_id, (get_job_status job_id w).2 = w)
  /\ (forall job_id, (get_audio job_id w).2 = w)
  /\ (get_all_jobs w).2 = w
  /\ (forall audio_dir, (health_check audio_dir w).2 = w).
Proof.
  split; [|split; [|split]].
  - intros job_id.
    destruct (get_job_status_outcome job_id w)
      as [(data & _ & R)|[_ [[_ R]|[(m & i & _ & _ & R)|(m & _ & _ & R)]]]];
      by rewrite R.
  - intros job_id.
    destruct (get_audio_outcome job_id w)
      as [[_ R]|(data & _ & [[_ R]|[_ R]])]; by rewrite R.
  - done.
  - done.
Qed.

(** X4. A submission never touches the artifact store, and a submission
    that is refused (for its text, for capacity, or with a 500) changes
    nothing at all. *)
Theorem tts_endpoint_refusal_changes_nothing (request : TTSRequestModel.t)
    (w : World) :
  fs (tts_endpoint request w).2 = fs w
  /\ forall e w', tts_endpoint request w = (Raise e, w') -> w' = w.
Proof.
  destruct (tts_endpoint_outcome request w)
    as [[_ R]|(text & _ & _ & [[_ R]|(m & _ & [[_ R]|[_ R]])])];
    rewrite R; split; try done; by intros e w' [= _ <-].
Qed.

(** X5. A deletion never changes the job manager and touches no file but
    the artifact of its job_id; the background tasks it hands back are the
    ones it was given, followed by at most one cleanup task for that
    job_id. *)
Theorem delete_audio_touches_one_file (job_id : string)
    (background_tasks : list task) (w : World) :
  let w' := (delete_audio job_id background_tasks w).2 in
  job_manager w' = job_manager w
  /\ (forall path, path <> audio_path job_id -> fs w' !! path = fs w !! path)
  /\ (forall message tasks w'',
        delete_audio job_id background_tasks w
        = (Return (message, tasks), w'') ->
        tasks = background_tasks
        \/ tasks = (background_tasks ++ [cleanup_job_task job_id])%list).
Proof.
  intros w'. subst w'.
  destruct (delete_audio_outcome job_id background_tasks w)
    as [[_ R]|(data & _ & [[Hm R]|(m & Hm & R)])]; rewrite R; simpl.
  - split; [done|]. split; [done|]. intros ??? [=].
  - split; [done|]. split; [|intros ??? [=]].
    intros path Hp. by apply lookup_delete_ne.
  - split; [done|]. split.
    + intros path Hp. by apply lookup_delete_ne.
    + intros message tasks w''. intros [= _ <- _].
      destruct (dict_contains job_id (jobs m)); auto.
Qed.

(** X6. Deleting before [initialize_router] has run: the artifact file is
    removed all the same, the answer is 500, and a fetch of the job_id
    afterwards is answered 404. *)
Theorem delete_audio_uninitialized_removes_file (job_id : string)
    (background_tasks : list task) (w : World) (data : list Byte.byte) :
  job_manager w = None ->
  fs w !! audio_path job_id = Some data ->
  exists w',
    delete_audio job_id background_tasks w
    = (Raise (HTTPException 500
         [("message",
           VStr ("Failed to delete audio: " +:+ NoneType_has_no "jobs"));
          ("traceback", VTraceback)]), w')
    /\ fs w' !! audio_path job_id = None
    /\ exists detail,
         get_audio job_id w' = (Raise (HTTPException 404 detail), w').
Proof.
  intros Hm E.
  destruct (delete_audio_outcome job_id background_tasks w)
    as [[E' _]|(data' & _ & [[_ R]|(m & Hm' & _)])]; [congruence| |congruence].
  eexists. split; [exact R|]. split; [apply lookup_delete_eq|].
  match goal with |- context [get_audio job_id ?w0] => set (w' := w0) end.
  destruct (get_audio_outcome job_id w') as [[_ R']|(d & Hd & _)].
  - eexists. exact R'.
  - subst w'. simpl in Hd. by rewrite lookup_delete_eq in Hd.
Qed.

(** X7. Before [initialize_router] has run: a submission with a usable
    text and a status lookup without artifact are answered 500 and change
    nothing; a status lookup with an artifact still answers "completed";
    the listing still answers, with the completed jobs only; and the
    health check reports zero for both counters of the job manager. *)
Theorem uninitialized_router_answers (w : World) :
  job_manager w = None ->
  (forall request text,
      TTSRequestModel.text request = Some text ->
      Py.strip text <> "" ->
      tts_endpoint request w
      = (Raise (HTTPException 500
           [("message",
             VStr ("Internal server error: "
                   +:+ NoneType_has_no "get_queue_size"));
            ("traceback", VTraceback)]), w))
  /\ (forall job_id,
        fs w !! audio_path job_id = None ->
        get_job_status job_id w
        = (Raise (HTTPException 500
             [("message",
               VStr ("Error checking job status: "
                     +:+ NoneType_has_no "get_job_status"));
              ("traceback", VTraceback)]), w))
  /\ (forall job_id data,
        fs w !! audio_path job_id = Some data ->
        get_job_status job_id w
        = (Return {| JobStatusResponse.job_id := job_id;
                     JobStatusResponse.status := "completed";
                     JobStatusResponse.message := "Audio is ready" |}, w))
  /\ get_all_jobs w
     = (Return (take 50 (sort_reverse sort_key (load_jobs (fs w)))), w)
  /\ (forall audio_dir health,
        (health_check audio_dir w).1 = Return health ->
        HealthStatus.status health = "healthy"
        /\ HealthStatus.active_jobs_size health = 0
        /\ HealthStatus.memory_jobs_count health = 0).
Proof.
  intros Hm. split; [|split; [|split; [|split]]].
  - intros request text Ht Hs.
    destruct (tts_endpoint_outcome request w)
      as [[[Hn|(t & Ht' & Hs')] _]|(t & _ & _ & [[_ R]|(m & Hm' & _)])];
      [congruence|congruence|exact R|congruence].
  - intros job_id E.
    destruct (get_job_status_outcome job_id w)
      as [(data & E' & _)|[_ [[_ R]|[(m & i & Hm' & _)|(m & Hm' & _)]]]];
      [congruence|exact R|congruence|congruence].
  - intros job_id data E.
    destruct (get_job_status_outcome job_id w)
      as [(data' & _ & R)|[E' _]]; [exact R|congruence].
  - rewrite get_all_jobs_outcome. unfold active_jobs. rewrite Hm.
    by rewrite app_nil_r.
  - intros audio_dir health. rewrite health_check_outcome, Hm.
    by intros [= <-].
Qed.

Lemma startswith_slash_mp3 (job_id : string) :
  Py.startswith "/" (job_id +:+ ".mp3") = Py.startswith "/" job_id.
Proof.
  destruct job_id as [|c j]; [done|]. by apply startswith_slash_append.
Qed.

Lemma audio_path_relative (job_id : string) :
  Py.startswith "/" job_id = false ->
  audio_path job_id = Py.os_path_join AUDIO_DIR "" +:+ job_id +:+ ".mp3".
Proof.
  intros Hj. unfold audio_path. apply os_path_join_relative.
  by rewrite startswith_slash_mp3.
Qed.

Lemma audio_path_inj (j1 j2 : string) :
  Py.startswith "/" j1 = false -> Py.startswith "/" j2 = false ->
  audio_path j1 = audio_path j2 -> j1 = j2.
Proof.
  intros Hj1 Hj2. rewrite !audio_path_relative by done.
  intros E%(inj (String.append _)). by apply append_inj_r in E.
Qed.

Lemma dict_contains_get {V} (k : string) (d : dict V) (v : V) :
  dict_get k d = Some v -> dict_contains k d = true.
Proof. unfold dict_contains. by intros ->. Qed.

(** X8. Jobs do not share artifact files: two job_ids that do not begin
    with a slash and have the same artifact path are the same job_id.  A
    job_id that begins with a slash is not kept inside [AUDIO_DIR]: its
    artifact path is the job_id itself with [.mp3] appended. *)
Theorem audio_path_one_file_per_job (j1 j2 : string) :
  (Py.startswith "/" j1 = false -> Py.startswith "/" j2 = false ->
   audio_path j1 = audio_path j2 -> j1 = j2)
  /\ (Py.startswith "/" j1 = true -> audio_path j1 = j1 +:+ ".mp3").
Proof.
  split; [apply audio_path_inj|].
  intros Hj. unfold audio_path, Py.os_path_join.
  by rewrite startswith_slash_mp3, Hj.
Qed.

(** X9. After a successful deletion the audio of the job_id is gone: a
    fetch of it is answered 404, and so is a second deletion, which
    changes nothing. *)
Theorem delete_audio_then_fetch (job_id : string)
    (background_tasks : list task) (w w' : World) result :
  delete_audio job_id background_tasks w = (Return result, w') ->
  (exists detail,
      get_audio job_id w' = (Raise (HTTPException 404 detail), w'))
  /\ (forall tasks, exists detail,
        delete_audio job_id tasks w'
        = (Raise (HTTPException 404 detail), w')).
Proof.
  intros E.
  destruct (delete_audio_outcome job_id background_tasks w)
    as [[_ R]|(data & _ & [[_ R]|(m & Hm & R)])];
    rewrite R in E; try discriminate E. injection E as _ <-.
  match goal with |- context [get_audio job_id ?w0] => set (w' := w0) end.
  assert (Hgone : fs w' !! audio_path job_id = None)
    by apply lookup_delete_eq.
  split.
  - destruct (get_audio_outcome job_id w') as [[_ R']|(d & Hd & _)];
      [eauto|congruence].
  - intros tasks.
    destruct (delete_audio_outcome job_id tasks w') as [[_ R']|(d & Hd & _)];
      [eauto|congruence].
Qed.

(** X10. Deletion and cleanup are two steps.  After the artifact of a job
    with an in-memory record is deleted, the handler has scheduled one
    cleanup task and the status lookup still reports the record; once the
    task has run (the cleanup removing the record, as the job manager
    promises) the status lookup is answered 404. *)
Theorem delete_audio_then_cleanup (job_id : string) (w : World)
    (data : list Byte.byte) (m : JobManager) (job_info : JobInfo.t) :
  cleanup_job_removes_record ->
  fs w !! audio_path job_id = Some data ->
  job_manager w = Some m ->
  dict_get job_id (jobs m) = Some job_info ->
  exists message w',
    delete_audio job_id [] w
    = (Return (message, [cleanup_job_task job_id]), w')
    /\ (exists response,
          get_job_status job_id w' = (Return response, w')
          /\ JobStatusResponse.status response
             = JobStatus_value (JobInfo.status job_info))
    /\ exists detail,
         (get_job_status job_id (run_tasks [cleanup_job_task job_id] w')).1
         = Raise (HTTPException 404 detail).
Proof.
  intros Hclean E Hm Hj.
  destruct (delete_audio_outcome job_id [] w)
    as [[E' _]|(data' & _ & [[Hm' _]|(m' & Hm' & R)])];
    [congruence|congruence|].
  assert (m' = m) as -> by congruence.
  rewrite (dict_contains_get _ _ _ Hj) in R.
  eexists _, _. split; [exact R|].
  match goal with |- context [get_job_status job_id ?w0 = _] =>
    set (w' := w0) end.
  assert (Hgone : fs w' !! audio_path job_id = None)
    by apply lookup_delete_eq.
  split.
  - destruct (get_job_status_outcome job_id w')
      as [(d & Hd & _)|[_ [[Hn _]|[(m1 & i & Hm1 & Hi & R1)|(m1 & Hm1 & Hi & _)]]]];
      [congruence|discriminate Hn| |].
    + injection Hm1 as <-. rewrite Hj in Hi. injection Hi as <-.
      eexists. split; [exact R1|done].
    + injection Hm1 as <-. congruence.
  - set (w'' := run_tasks [cleanup_job_task job_id] w').
    assert (Hgone' : fs w'' !! audio_path job_id = None) by exact Hgone.
    destruct (get_job_status_outcome job_id w'')
      as [(d & Hd & _)|[_ [[Hn _]|[(m1 & i & Hm1 & Hi & _)|(m1 & _ & _ & R1)]]]];
      [congruence|discriminate Hn| |].
    + injection Hm1 as <-.
      destruct (Hclean job_id m) as [Hnone _]. congruence.
    + rewrite R1. eauto.
Qed.

(** X11. Submit, then poll.  After an admitted submission whose new job_id
    has no artifact yet, the status lookup of that job_id reports the
    QUEUED status of the record the job manager created, with the message
    "Audio is ready". *)
Theorem tts_endpoint_then_status (request : TTSRequestModel.t)
    (w w' : World) (response : TTSResponseModel.t) :
  add_job_records_request ->
  tts_endpoint request w = (Return response, w') ->
  fs w !! audio_path (TTSResponseModel.job_id response) = None ->
  get_job_status (TTSResponseModel.job_id response) w'
  = (Return
       {| JobStatusResponse.job_id := TTSResponseModel.job_id response;
          JobStatusResponse.status := JobStatus_value QUEUED;
          JobStatusResponse.message := "Audio is ready" |}, w').
Proof.
  intros Hrec E Hfs.
  destruct (tts_endpoint_outcome request w)
    as [[_ R]|(text & _ & _ & [[_ R]|(m & _ & [[_ R]|[_ R]])])];
    rewrite R in E; try discriminate E. injection E as <- <-.
  simpl in *.
  set (job := submitted_request request text) in *.
  destruct (Hrec job m) as (info & Hi & _ & Hq).
  match goal with |- get_job_status ?j ?w0 = _ =>
    destruct (get_job_status_outcome j w0)
      as [(d & Hd & _)|[_ [[Hn _]|[(m1 & i & Hm1 & Hi1 & R1)|(m1 & Hm1 & Hi1 & _)]]]]
  end.
  - simpl in Hd. congruence.
  - discriminate Hn.
  - injection Hm1 as <-. rewrite Hi in Hi1. injection Hi1 as <-.
    rewrite R1, Hq. done.
  - injection Hm1 as <-. congruence.
Qed.

(** X15. What an admitted submission hands to the job manager is the text
    without the whitespace around it: the text is that core between two
    runs of whitespace, and the core is not empty and neither starts nor
    ends with whitespace. *)
Theorem tts_endpoint_submits_trimmed_core (request : TTSRequestModel.t)
    (w w' : World) (response : TTSResponseModel.t) :
  tts_endpoint request w = (Return response, w') ->
  exists text m pre post c core d,
    TTSRequestModel.text request = Some text
    /\ job_manager w = Some m
    /\ response
       = {| TTSResponseModel.job_id :=
              (add_job (submitted_request request text) m).1 |}
    /\ TTSRequest.text (submitted_request request text) = Py.strip text
    /\ text = pre +:+ Py.strip text +:+ post
    /\ Py.blank pre = true /\ Py.blank post = true
    /\ Py.strip text = String c core
    /\ Py.isspace c = false
    /\ (exists front, Py.strip text = front +:+ String d "")
    /\ Py.isspace d = false.
Proof.
  intros E.
  destruct (tts_endpoint_outcome request w)
    as [[_ R]|(text & Ht & Hs & [[_ R]|(m & Hm & [[_ R]|[_ R]])])];
    rewrite R in E; try discriminate E. injection E as <- _.
  destruct (strip_split text) as (pre & post & Hsplit & Hpre & Hpost).
  destruct (Py.strip text) as [|c core] eqn:Hcore; [done|].
  destruct (strip_ends text c core Hcore) as (Hc & d & front & Hd & Hdsp).
  exists text, m, pre, post, c, core, d.
  simpl. rewrite !Hcore. rewrite Hcore in Hd.
  split; [done|]. split; [done|]. split; [done|]. split; [done|].
  split; [done|]. split; [done|]. split; [done|]. split; [done|].
  split; [done|]. split; [by exists front|done].
Qed.

(** X16. Whitespace around the text never changes the answer: a
    submission and the same submission with its text already trimmed are
    answered alike and leave the same state. *)
Theorem tts_endpoint_ignores_outer_whitespace (request : TTSRequestModel.t)
    (text : string) (w : World) :
  TTSRequestModel.text request = Some text ->
  tts_endpoint request w
  = tts_endpoint
      {| TTSRequestModel.text := Some (Py.strip text);
         TTSRequestModel.voice := TTSRequestModel.voice request;
         TTSRequestModel.pitch := TTSRequestModel.pitch request;
         TTSRequestModel.speed := TTSRequestModel.speed request;
         TTSRequestModel.volume := TTSRequestModel.volume request |} w.
Proof.
  intros Ht. run. rewrite Ht. simpl.
  rewrite !strip_eqb_empty, !strip_idem. done.
Qed.

(** X17. The status lookup and the audio fetch agree on what exists:
    whenever the fetch returns audio the status lookup answers
    "completed", and whenever the status lookup answers 404 so do the
    fetch and the deletion. *)
Theorem fetch_and_status_agree (job_id : string) (w : World) :
  (forall response w',
      get_audio job_id w = (Return response, w') ->
      get_job_status job_id w
      = (Return {| JobStatusResponse.job_id := job_id;
                   JobStatusResponse.status := "completed";
                   JobStatusResponse.message := "Audio is ready" |}, w))
  /\ (forall detail w',
        get_job_status job_id w = (Raise (HTTPException 404 detail), w') ->
        (exists detail', get_audio job_id w
                         = (Raise (HTTPException 404 detail'), w))
        /\ forall tasks, exists detail',
             delete_audio job_id tasks w
             = (Raise (HTTPException 404 detail'), w)).
Proof.
  split.
  - intros response w' E.
    destruct (get_audio_outcome job_id w)
      as [[_ R]|(data & Hd & _)]; [by rewrite R in E|].
    destruct (get_job_status_outcome job_id w)
      as [(d & _ & R)|[Hn _]]; [exact R|congruence].
  - intros detail w' E.
    assert (Hn : fs w !! audio_path job_id = None).
    { destruct (get_job_status_outcome job_id w)
        as [(d & _ & R)|[Hn _]]; [by rewrite R in E|done]. }
    split.
    + destruct (get_audio_outcome job_id w) as [[_ R]|(d & Hd & _)];
        [eauto|congruence].
    + intros tasks.
      destruct (delete_audio_outcome job_id tasks w) as [[_ R]|(d & Hd & _)];
        [eauto|congruence].
Qed.

(** X18. What the answer of a submission tells: a job_id is only returned
    for a text that is not blank and a queue within the limit; 503 is only
    answered for a queue above the limit; 400 is only answered for a text
    that is absent or blank. *)
Theorem tts_endpoint_answer_tells (request : TTSRequestModel.t) (w : World) :
  (forall response w',
      tts_endpoint request w = (Return response, w') ->
      exists text m,
        TTSRequestModel.text request = Some text
        /\ Py.blank text = false
        /\ job_manager w = Some m
        /\ get_queue_size m <= max_concurrent m * 2)
  /\ (forall detail w',
        tts_endpoint request w = (Raise (HTTPException 503 detail), w') ->
        exists m,
          job_manager w = Some m
          /\ get_queue_size m > max_concurrent m * 2
          /\ detail
             = [("message",
                 VStr "Server is currently at capacity. Please try again later.");
                ("queue_size", VInt (get_queue_size m))])
  /\ (forall detail w',
        tts_endpoint request w = (Raise (HTTPException 400 detail), w') ->
        TTSRequestModel.text request = None
        \/ exists text,
             TTSRequestModel.text request = Some text
             /\ Py.blank text = true).
Proof.
  assert (Hblank : forall text, Py.strip text <> "" -> Py.blank text = false).
  { intros text Hs. destruct (Py.blank text) eqn:Hb; [|done].
    by apply strip_empty_iff in Hb. }
  destruct (tts_endpoint_outcome request w)
    as [[Ht R]|(text & Ht & Hs & [[_ R]|(m & Hm & [[Hq R]|[Hq R]])])];
    rewrite R; (split; [|split]); try (by intros ?? [=]).
  - intros _ _ _. destruct Ht as [Ht|(text & Ht & Hs)]; [by left|].
    right. exists text. split; [done|]. by apply strip_empty_iff.
  - intros detail w' [= <- _]. by exists m.
  - intros response w' _. exists text, m. auto.
Qed.

(** X21. The message of the status lookup says "Audio is being processed"
    exactly for a job without artifact whose record is PROCESSING; every
    other status that is reported, QUEUED and FAILED included, comes with
    "Audio is ready". *)
Theorem get_job_status_message (job_id : string) (w w' : World)
    (response : JobStatusResponse.t) :
  get_job_status job_id w = (Return response, w') ->
  (JobStatusResponse.message response = "Audio is being processed"
   <-> fs w !! audio_path job_id = None
       /\ exists m job_info,
            job_manager w = Some m
            /\ dict_get job_id (jobs m) = Some job_info
            /\ JobInfo.status job_info = PROCESSING)
  /\ (JobStatusResponse.message response <> "Audio is being processed" ->
      JobStatusResponse.message response = "Audio is ready").
Proof.
  intros E.
  destruct (get_job_status_outcome job_id w)
    as [(d & Hd & R)|[Hn [[_ R]|[(m & i & Hm & Hi & R)|(m & _ & _ & R)]]]];
    rewrite R in E; try discriminate E; injection E as <- _; simpl.
  - split; [|done]. split; [done|]. intros [Hn _]. congruence.
  - destruct (decide (JobInfo.status i = PROCESSING)) as [Hp|Hp].
    + split; [|done]. split; [|done]. intros _. split; [done|].
      by exists m, i.
    + split; [|done]. split; [done|].
      intros (_ & m' & i' & Hm' & Hi' & Hp'). congruence.
Qed.



(** X13. The sort of the listing is stable: among the listed entries that
    share one [created_at], the completed jobs stand before the active
    ones and each group keeps the order it was read in. *)
Theorem get_all_jobs_stable (w : World) (created_at : string) :
  exists listing,
    get_all_jobs w = (Return listing, w)
    /\ filter (fun e => sort_key e = created_at) listing
       `prefix_of`
       (filter (fun e => sort_key e = created_at) (load_jobs (fs w))
        ++ filter (fun e => sort_key e = created_at) (active_jobs w))%list.
Proof.
  eexists. split; [apply get_all_jobs_outcome|].
  rewrite <- filter_app.
  rewrite <- (sort_reverse_stable sort_key created_at
                (load_jobs (fs w) ++ active_jobs w)%list).
  set (sorted :=
         sort_reverse sort_key (load_jobs (fs w) ++ active_jobs w)%list).
  rewrite <- (take_drop 50 sorted) at 2. rewrite filter_app.
  by apply prefix_app_r.
Qed.

(** X14. The text of an active entry is a preview: a text of at most 100
    characters is shown as it is, a longer one as its first 100 characters
    followed by three dots, 103 characters in all; so every active entry
    of the listing has a text of at most 103 characters, no audio and a
    [created_at]. *)
Theorem text_preview_bounded :
  (forall text,
      (Py.len text <= 100 -> text_preview text = text)
      /\ (Py.len text > 100 ->
          text_preview text = Py.slice_to 100 text +:+ "..."
          /\ Py.len (text_preview text) = 103
          /\ exists rest, text = Py.slice_to 100 text +:+ rest))
  /\ (forall w e,
        e ∈ active_jobs w ->
        JobEntry.audio_exists e = false
        /\ is_Some (JobEntry.created_at e)
        /\ exists text, JobEntry.text e = Some text /\ Py.len text <= 103).
Proof.
  assert (Hp : forall text,
             (Py.len text <= 100 -> text_preview text = text)
             /\ (Py.len text > 100 ->
                 text_preview text = Py.slice_to 100 text +:+ "..."
                 /\ Py.len (text_preview text) = 103
                 /\ exists rest, text = Py.slice_to 100 text +:+ rest)).
  { intros text. unfold text_preview, Py.len, Py.slice_to.
    destruct (Z.of_nat (String.length text) >? 100)%Z eqn:Hl.
    - apply Z.gtb_lt in Hl. split; [lia|]. intros _. split; [done|].
      split; [|apply substring_0_prefix].
      rewrite length_append, substring_0_exact by lia. done.
    - split; [done|]. intros Hgt. apply Z.gt_lt, Z.gtb_lt in Hgt. congruence. }
  split; [exact Hp|].
  intros w e. unfold active_jobs. destruct (job_manager w) as [m|];
    [|by intros ?%elem_of_nil].
  intros (j & i & _ & _ & ->)%active_jobs_loop_elem. simpl.
  split; [done|]. split; [done|]. eexists. split; [done|].
  destruct (Hp (TTSRequest.text (JobInfo.request i))) as [Hshort Hlong].
  destruct (Z_le_gt_dec (Py.len (TTSRequest.text (JobInfo.request i))) 100)
    as [Hle|Hgt].
  - rewrite (Hshort Hle). lia.
  - destruct (Hlong Hgt) as (_ & -> & _). lia.
Qed.



(** X20. The health check counts the artifacts: when what it finds in the
    artifact directory agrees with the file system, [audio_files_count] is
    at least the number of jobs (job_ids without a slash) whose artifact
    file exists. *)
Theorem health_check_counts_artifacts (audio_dir : option (list string))
    (w : World) (job_ids : list string) :
  audio_dir_lists audio_dir w ->
  NoDup job_ids ->
  (forall job_id,
      job_id ∈ job_ids ->
      Py.contains "/" job_id = false
      /\ is_Some (fs w !! audio_path job_id)) ->
  exists health,
    health_check audio_dir w = (Return health, w)
    /\ Z.of_nat (length job_ids) <= HealthStatus.audio_files_count health.
Proof.
  intros Hdir Hnd Hjobs.
  eexists. split; [apply health_check_outcome|]. simpl.
  assert (Hname : forall job_id,
             job_id ∈ job_ids ->
             Py.contains "/" (job_id +:+ ".mp3") = false
             /\ is_Some (fs w !! Py.os_path_join AUDIO_DIR
                                   (job_id +:+ ".mp3"))).
  { intros job_id [Hs Hf]%Hjobs. split; [|exact Hf].
    rewrite contains_append, Hs. done. }
  destruct audio_dir as [entries|]; simpl in Hdir.
  - destruct Hdir as [Hnd' Hin].
    apply inj_le. rewrite <- (length_fmap (fun j => j +:+ ".mp3") job_ids).
    apply submseteq_length, NoDup_submseteq.
    + apply NoDup_fmap_2_strong; [|done].
      intros j1 j2 _ _ E. by apply append_inj_r in E.
    + intros name (j & -> & Hj)%list_elem_of_fmap.
      apply list_elem_of_filter. split; [apply endswith_append|].
      destruct (Hname j Hj) as [Hs Hf]. by apply Hin.
  - destruct job_ids as [|j js]; [done|]. exfalso.
    destruct (Hname j) as [Hs [d Hf]]; [by left|].
    by rewrite (Hdir _ Hs) in Hf.
Qed.

End Further.

(** ** The reference instance meets the contracts *)

Lemma dict_get_set {V} (k : string) (v : V) (d : dict V) :
  dict_get k (dict_set k v d) = Some v.
Proof.
  induction d as [|[k' v'] d IH]; simpl.
  - by rewrite String.eqb_refl.
  - destruct (String.eqb_spec k' k) as [->|Hne]; simpl.
    + by rewrite String.eqb_refl.
    + by destruct (String.eqb_spec k' k).
Qed.

Lemma dict_get_del {V} (k : string) (d : dict V) :
  dict_get k (dict_del k d) = None.
Proof.
  induction d as [|[k' v'] d IH]; simpl; [done|].
  destruct (String.eqb_spec k' k) as [->|Hne]; simpl; [done|].
  by destruct (String.eqb_spec k' k).
Qed.

Lemma reference_add_job_records_request :
  @add_job_records_request Reference.job_management.
Proof.
  intros request m. simpl. eexists. split; [apply dict_get_set|]. done.
Qed.

Lemma reference_load_jobs_scans_artifacts :
  @load_jobs_scans_artifacts Reference.job_management Reference.storage.
Proof.
  intros files e. simpl. unfold Reference.scan.
  intros ([path data] & Hin & He)%list_elem_of_omap.
  apply elem_of_map_to_list in Hin.
  unfold Reference.entry_of_file in He. simpl in He.
  destruct (Py.startswith "audio/" path && Py.endswith ".mp3" path); [|done].
  destruct (String.eqb_spec
              (@audio_path Reference.job_management
                 (substring 6 (String.length path - 10) path)) path)
    as [E|]; [|done].
  injection He as <-. simpl. rewrite E. by exists data.
Qed.

(** Cleaning up twice is cleaning up once, and the record is gone. *)
Lemma reference_cleanup_idempotent (job_id : string) (m : Reference.manager) :
  Reference.cleanup job_id (Reference.cleanup job_id m)
  = Reference.cleanup job_id m
  /\ dict_get job_id (Reference.m_jobs (Reference.cleanup job_id m)) = None.
Proof.
  split; [|apply dict_get_del].
  unfold Reference.cleanup. simpl. f_equal.
  induction (Reference.m_jobs m) as [|[k v] d IH]; simpl; [done|].
  destruct (String.eqb_spec k job_id) as [->|Hne]; simpl; [done|].
  destruct (String.eqb_spec k job_id); [done|]. by rewrite IH.
Qed.

Lemma dict_get_del_ne {V} (k other : string) (d : dict V) :
  other <> k -> dict_get other (dict_del k d) = dict_get other d.
Proof.
  intros Hne. induction d as [|[k' v'] d IH]; simpl; [done|].
  destruct (String.eqb_spec k' k) as [->|Hk]; simpl.
  - destruct (String.eqb_spec k other) as [->|]; [done|exact IH].
  - destruct (String.eqb_spec k' other); [done|exact IH].
Qed.

Lemma reference_cleanup_job_removes_record :
  @cleanup_job_removes_record Reference.job_management.
Proof.
  intros job_id m. simpl. split; [apply dict_get_del|].
  intros other Hne. by apply dict_get_del_ne.
Qed.

Lemma scenario_audio_dir_lists :
  @audio_dir_lists Reference.job_management Scenario.audio_dir Scenario.world.
Proof.
  simpl. split.
  - apply NoDup_cons. split; [|apply NoDup_singleton].
    intros [=]%list_elem_of_singleton.
  - intros name Hs [data Hf].
    assert (Hrel : Py.startswith "/" name = false).
    { destruct (Py.startswith "/" name) eqn:E; [|done].
      apply startswith_slash_contains in E. congruence. }
    rewrite (os_path_join_relative _ _ Hrel) in Hf.
    change (Py.os_path_join "audio" "") with "audio/" in Hf.
    unfold Scenario.files in Hf.
    apply lookup_insert_Some in Hf as [[E _]|[_ Hf]].
    { apply (inj (String.append "audio/") "a.mp3" name) in E as <-.
      apply elem_of_cons. by left. }
    apply lookup_insert_Some in Hf as [[E _]|[_ Hf]].
    { apply (inj (String.append "audio/") "c.mp3" name) in E as <-.
      apply elem_of_cons. right. apply elem_of_cons. by left. }
    by rewrite lookup_empty in Hf.
Qed.

(** ** The properties at work on the scenario *)

Section OnTheScenario.
#[local] Existing Instance Reference.job_management.
#[local] Existing Instance Reference.storage.
#[local] Existing Instance Scenario.runtime.

Import Scenario.

(** The listing of the busy world: active jobs newest first, then the
    completed entries, which carry no [created_at]. *)
Example get_all_jobs_ex :
  (JobEntry.job_id <$>
     match (get_all_jobs busy_world).1 with Return l => l | Raise _ => [] end)
  = ["d"; "b"; "c"; "a"].
Proof. vm_compute. reflexivity. Qed.

Lemma tts_endpoint_empty_text_witness :
  (TTSRequestModel.text (submission (Some "")) = None
   \/ TTSRequestModel.text (submission (Some "")) = Some "")
  /\ tts_endpoint (submission (Some "")) world
     = (Raise (HTTPException 400 [("message", VStr "Text is required")]),
        world)
  /\ tts_endpoint (submission None) busy_world
     = (Raise (HTTPException 400 [("message", VStr "Text is required")]),
        busy_world).
Proof.
  split; [right; reflexivity|]. split.
  - apply tts_endpoint_empty_text. right. reflexivity.
  - apply tts_endpoint_empty_text. left. reflexivity.
Defined.

Lemma tts_endpoint_admission_witness :
  Py.strip " Hello world " <> ""
  /\ get_queue_size busy_manager > max_concurrent busy_manager * 2
  /\ tts_endpoint (submission (Some " Hello world ")) busy_world
     = (Raise (HTTPException 503
          [("message",
            VStr "Server is currently at capacity. Please try again later.");
           ("queue_size", VInt 3)]), busy_world)
  /\ get_queue_size manager <= max_concurrent manager * 2
  /\ (tts_endpoint (submission (Some " Hello world ")) world).1
     = Return {| TTSResponseModel.job_id := "job-2" |}.
Proof.
  assert (Hs : Py.strip " Hello world " <> "") by (simpl; discriminate).
  assert (Hbusy : get_queue_size busy_manager
                  > max_concurrent busy_manager * 2)
    by (vm_compute; reflexivity).
  assert (Hidle : get_queue_size manager <= max_concurrent manager * 2)
    by (vm_compute; discriminate).
  split; [exact Hs|]. split; [exact Hbusy|]. split.
  - exact (proj1 (tts_endpoint_admission
                    (submission (Some " Hello world ")) " Hello world "
                    busy_world busy_manager eq_refl Hs eq_refl) Hbusy).
  - split; [exact Hidle|].
    rewrite (proj2 (tts_endpoint_admission
                      (submission (Some " Hello world ")) " Hello world "
                      world manager eq_refl Hs eq_refl) Hidle).
    vm_compute. reflexivity.
Defined.

Lemma tts_endpoint_trims_text_witness :
  ("   " <> "" /\ Py.blank "   " = true)
  /\ tts_endpoint (submission (Some "   ")) world
     = (Raise (HTTPException 400 [("message", VStr "Text is required")]),
        world)
  /\ add_job_records_request
  /\ (exists pre post,
        " Hello world " = pre +:+ "Hello world" +:+ post
        /\ Py.blank pre = true /\ Py.blank post = true)
  /\ exists info,
       dict_get "job-2"
         (jobs (add_job
                  {| TTSRequest.text := "Hello world";
                     TTSRequest.voice := "en-US-AriaNeural";
                     TTSRequest.pitch := "+0Hz";
                     TTSRequest.speed := "+0%";
                     TTSRequest.volume := "+0%" |} manager).2) = Some info
       /\ TTSRequest.text (JobInfo.request info) = "Hello world".
Proof.
  split; [split; [discriminate|reflexivity]|]. split.
  - exact (proj1 (tts_endpoint_trims_text (submission (Some "   ")) world)
             "   " eq_refl ltac:(discriminate) eq_refl).
  - split; [exact reference_add_job_records_request|].
    destruct (proj2 (tts_endpoint_trims_text
                       (submission (Some " Hello world ")) world)
                {| TTSResponseModel.job_id := "job-2" |}
                (tts_endpoint (submission (Some " Hello world ")) world).2
                ltac:(vm_compute; reflexivity))
      as (text & m & Ht & Hm & (pre & post & Hsplit & Hpre & Hpost & _)
          & _ & _ & _ & Hrec).
    injection Ht as <-. injection Hm as <-. split.
    + exists pre, post. split; [exact Hsplit|]. split; [exact Hpre|exact Hpost].
    + exact (Hrec reference_add_job_records_request).
Defined.

Lemma get_job_status_artifact_first_witness :
  (fs world !! audio_path "a" = Some (replicate 120 Byte.x2a)
   /\ (JobInfo.status <$> dict_get "a" (jobs manager)) = Some PROCESSING
   /\ get_job_status "a" world
      = (Return {| JobStatusResponse.job_id := "a";
                   JobStatusResponse.status := "completed";
                   JobStatusResponse.message := "Audio is ready" |}, world))
  /\ (fs world !! audio_path "b" = None
      /\ get_job_status "b" world
         = (Return {| JobStatusResponse.job_id := "b";
                      JobStatusResponse.status := "queued";
                      JobStatusResponse.message := "Audio is ready" |},
            world))
  /\ (fs world !! audio_path "zzz" = None
      /\ dict_get "zzz" (jobs manager) = None
      /\ get_job_status "zzz" world
         = (Raise (HTTPException 404
                     [("message", VStr "Job zzz not found");
                      ("job_id", VStr "zzz")]), world)).
Proof.
  split; [|split].
  - split; [reflexivity|]. split; [reflexivity|].
    exact (proj1 (get_job_status_artifact_first "a" world)
             (replicate 120 Byte.x2a) eq_refl).
  - split; [reflexivity|].
    exact (proj1 (proj2 (get_job_status_artifact_first "b" world))
             manager (job QUEUED 1700000100 "second")
             eq_refl eq_refl eq_refl).
  - split; [reflexivity|]. split; [reflexivity|].
    exact (proj2 (proj2 (get_job_status_artifact_first "zzz" world))
             manager eq_refl eq_refl eq_refl).
Defined.

Lemma get_audio_fetch_witness :
  (fs world !! audio_path "zzz" = None
   /\ get_audio "zzz" world
      = (Raise (HTTPException 404
                  [("message",
                    VStr "Audio for job zzz not found or not ready yet");
                   ("job_id", VStr "zzz")]), world))
  /\ (fs world !! audio_path "c" = Some [Byte.x2a]
      /\ (length [Byte.x2a] < 100)%nat
      /\ get_audio "c" world
         = (Raise (HTTPException 422
                     [("message",
                       VStr "Audio file appears to be incomplete for job c");
                      ("job_id", VStr "c")]), world))
  /\ (fs world !! audio_path "a" = Some (replicate 120 Byte.x2a)
      /\ (100 <= length (replicate 120 Byte.x2a))%nat
      /\ exists response,
           get_audio "a" world = (Return response, world)
           /\ Response.content response = replicate 120 Byte.x2a
           /\ Response.media_type response = "audio/mpeg"
           /\ Response.headers response !! "Cache-Control"
              = Some "public, max-age=86400"
           /\ Response.headers response !! "ETag"
              = Some (dquote +:+ "-3012895188637184397" +:+ dquote)).
Proof.
  split; [|split].
  - split; [reflexivity|].
    exact (proj1 (get_audio_fetch "zzz" world) eq_refl).
  - assert (Hlen : (length [Byte.x2a] < 100)%nat) by (simpl; lia).
    split; [reflexivity|]. split; [exact Hlen|].
    exact (proj1 (proj2 (get_audio_fetch "c" world))
             [Byte.x2a] eq_refl Hlen).
  - assert (Hlen : (100 <= length (replicate 120 Byte.x2a))%nat)
      by (rewrite length_replicate; lia).
    split; [reflexivity|]. split; [exact Hlen|].
    destruct (proj2 (proj2 (get_audio_fetch "a" world))
                (replicate 120 Byte.x2a) eq_refl Hlen)
      as (response & Hr & Hc & Hm & Hcc & He).
    exists response. split; [exact Hr|]. split; [exact Hc|].
    split; [exact Hm|]. split; [exact Hcc|].
    rewrite He. vm_compute. reflexivity.
Defined.

Lemma status_completed_but_audio_incomplete_witness :
  fs world !! audio_path "c" = Some [Byte.x2a]
  /\ (length [Byte.x2a] < 100)%nat
  /\ get_job_status "c" world
     = (Return {| JobStatusResponse.job_id := "c";
                  JobStatusResponse.status := "completed";
                  JobStatusResponse.message := "Audio is ready" |}, world)
  /\ get_audio "c" world
     = (Raise (HTTPException 422
                 [("message",
                   VStr "Audio file appears to be incomplete for job c");
                  ("job_id", VStr "c")]), world).
Proof.
  assert (Hlen : (length [Byte.x2a] < 100)%nat) by (simpl; lia).
  split; [reflexivity|]. split; [exact Hlen|].
  exact (status_completed_but_audio_incomplete "c" world [Byte.x2a]
           eq_refl Hlen).
Defined.

Lemma delete_audio_removes_and_defers_witness :
  (fs world !! audio_path "b" = None
   /\ delete_audio "b" [] world
      = (Raise (HTTPException 404
                  [("message", VStr "Audio for job b not found");
                   ("job_id", VStr "b")]), world))
  /\ (fs world !! audio_path "a" = Some (replicate 120 Byte.x2a)
      /\ job_manager world = Some manager
      /\ delete_audio "a" [] world
         = (Return
              ([("message", VStr "Audio for job a deleted successfully")],
               [cleanup_job_task "a"]),
            {| fs := delete (audio_path "a") (fs world);
               job_manager := Some manager |}))
  /\ (fs world !! audio_path "c" = Some [Byte.x2a]
      /\ (delete_audio "c" [] world).1
         = Return
             ([("message", VStr "Audio for job c deleted successfully")],
              [])).
Proof.
  split; [|split].
  - split; [reflexivity|].
    exact (proj1 (delete_audio_removes_and_defers "b" [] world) eq_refl).
  - split; [reflexivity|]. split; [reflexivity|].
    exact (proj1 (proj2 (delete_audio_removes_and_defers "a" [] world)
                    (replicate 120 Byte.x2a) manager eq_refl eq_refl)).
  - split; [reflexivity|].
    rewrite (proj1 (proj2 (delete_audio_removes_and_defers "c" [] world)
                      [Byte.x2a] manager eq_refl eq_refl)).
    reflexivity.
Defined.

Lemma active_jobs_exclude_artifacts_witness :
  load_jobs_scans_artifacts
  /\ (forall c a,
        c ∈ load_jobs (fs world) -> a ∈ active_jobs world ->
        JobEntry.job_id c <> JobEntry.job_id a)
  /\ (os_path_exists (audio_path "a") world = true
      /\ ~ exists e, e ∈ active_jobs world /\ JobEntry.job_id e = "a")
  /\ (os_path_exists (audio_path "b") world = false
      /\ exists e, e ∈ active_jobs world /\ JobEntry.job_id e = "b").
Proof.
  pose proof (active_jobs_exclude_artifacts world)
    as (Hiff & _ & Hdisjoint & _).
  split; [exact reference_load_jobs_scans_artifacts|].
  split; [exact (Hdisjoint reference_load_jobs_scans_artifacts)|].
  split.
  - split; [reflexivity|]. intros Ha.
    apply (Hiff manager "a" (job PROCESSING 1700000000 "first") eq_refl)
      in Ha; [discriminate Ha|].
    apply elem_of_cons. left. reflexivity.
  - split; [reflexivity|].
    apply (Hiff manager "b" (job QUEUED 1700000100 "second") eq_refl);
      [|reflexivity].
    apply elem_of_cons. right. apply elem_of_cons. left. reflexivity.
Defined.

Lemma etag_stable_within_process_witness :
  (exists r1 r2,
      get_audio "a" world = (Return r1, world)
      /\ get_audio "a" other_world = (Return r2, other_world)
      /\ Response.content r1 <> Response.content r2
      /\ Response.headers r1 !! "ETag"
         = Some (dquote +:+ "-3012895188637184397" +:+ dquote)
      /\ Response.headers r2 !! "ETag" = Response.headers r1 !! "ETag").
Proof.
  set (served := fun content : list Byte.byte =>
         {| Response.content := content;
            Response.media_type := "audio/mpeg";
            Response.headers :=
              <["ETag" := etag "a"]>
                (<["Cache-Control" := "public, max-age=86400"]> ∅) |}).
  assert (E1 : get_audio "a" world
               = (Return (served (replicate 120 Byte.x2a)), world))
    by (vm_compute; reflexivity).
  assert (E2 : get_audio "a" other_world
               = (Return (served (replicate 100 Byte.x00)), other_world))
    by (vm_compute; reflexivity).
  pose proof (etag_stable_within_process "a" world other_world
                world other_world _ _ E1 E2) as [H1 H2].
  exists (served (replicate 120 Byte.x2a)), (served (replicate 100 Byte.x00)).
  split; [exact E1|]. split; [exact E2|]. split.
  - simpl. discriminate.
  - split; [|exact H2]. rewrite H1. vm_compute. reflexivity.
Defined.

(** C1 does not reach blank texts: a text of one space is not empty and
    the queue is within the limit, yet the answer is 400 and nothing is
    admitted. *)
Lemma tts_endpoint_blank_text_not_admitted :
  (" " <> ""
   /\ get_queue_size manager <= max_concurrent manager * 2
   /\ tts_endpoint (submission (Some " ")) world
      = (Raise (HTTPException 400 [("message", VStr "Text is required")]),
         world))
  /\ ~ admission_for_nonempty_text.
Proof.
  assert (Hidle : get_queue_size manager <= max_concurrent manager * 2)
    by (vm_compute; discriminate).
  split.
  - split; [discriminate|]. split; [exact Hidle|]. reflexivity.
  - intros Hclaim.
    destruct (Hclaim (submission (Some " ")) " " world manager
                eq_refl ltac:(discriminate) eq_refl) as [_ Hadmit].
    destruct (Hadmit Hidle) as (response & w' & Hr).
    vm_compute in Hr. discriminate Hr.
Qed.

(** C8. The validator tag is not a stable function of the job_id: the
    same artifact fetched from a process started with [PYTHONHASHSEED=1]
    and from one started with [PYTHONHASHSEED=2] carries two different
    tags, since [hash] on strings is keyed by the secret of the process. *)
Lemma etag_differs_between_processes :
  (@etag (Reference.runtime 1) "a"
     = dquote +:+ "-3012895188637184397" +:+ dquote
   /\ @etag (Reference.runtime 2) "a"
      = dquote +:+ "6352457989142756797" +:+ dquote)
  /\ ~ etag_of_job_id_alone.
Proof.
  split; [split; vm_compute; reflexivity|].
  intros Hclaim.
  destruct (@get_audio (Reference.runtime 1) _ "a" world)
    as [[r1|e1] w1] eqn:E1; [|vm_compute in E1; discriminate E1].
  destruct (@get_audio (Reference.runtime 2) _ "a" world)
    as [[r2|e2] w2] eqn:E2; [|vm_compute in E2; discriminate E2].
  pose proof (Hclaim (Reference.runtime 1) (Reference.runtime 2) "a"
                world world r1 r2) as Hsame.
  rewrite E1, E2 in Hsame. specialize (Hsame eq_refl eq_refl).
  vm_compute in E1, E2. injection E1 as <- _. injection E2 as <- _.
  vm_compute in Hsame. discriminate Hsame.
Qed.

Lemma handlers_raise_only_HTTPException_witness :
  tts_endpoint (submission None) world
  = (Raise (HTTPException 400 [("message", VStr "Text is required")]), world)
  /\ (exists detail,
        HTTPException 400 [("message", VStr "Text is required")]
        = HTTPException 400 detail
        \/ HTTPException 400 [("message", VStr "Text is required")]
           = HTTPException 500 detail
        \/ HTTPException 400 [("message", VStr "Text is required")]
           = HTTPException 503 detail)
  /\ (get_audio "c" world).2 = world
  /\ exists detail e,
       (get_audio "c" world).1 = Raise e
       /\ (e = HTTPException 404 detail \/ e = HTTPException 422 detail
           \/ e = HTTPException 500 detail).
Proof.
  destruct handlers_raise_only_HTTPException as (Htts & _ & Haudio & _).
  assert (E : tts_endpoint (submission None) world
              = (Raise (HTTPException 400
                          [("message", VStr "Text is required")]), world))
    by reflexivity.
  split; [exact E|]. split; [exact (Htts _ _ _ _ E)|].
  split; [vm_compute; reflexivity|].
  assert (E' : get_audio "c" world
               = (Raise (HTTPException 422
                    [("message",
                      VStr "Audio file appears to be incomplete for job c");
                     ("job_id", VStr "c")]), world))
    by (vm_compute; reflexivity).
  destruct (Haudio _ _ _ _ E') as [detail Hd].
  exists detail. eexists. split; [by rewrite E'|exact Hd].
Defined.

Lemma tts_endpoint_refusal_changes_nothing_witness :
  tts_endpoint (submission (Some " Hello world ")) cold_world
  = (Raise (HTTPException 500
       [("message",
         VStr ("Internal server error: " +:+ NoneType_has_no "get_queue_size"));
        ("traceback", VTraceback)]),
     (tts_endpoint (submission (Some " Hello world ")) cold_world).2)
  /\ (tts_endpoint (submission (Some " Hello world ")) cold_world).2
     = cold_world
  /\ fs (tts_endpoint (submission (Some " Hello world ")) world).2 = fs world.
Proof.
  assert (E : tts_endpoint (submission (Some " Hello world ")) cold_world
              = (Raise (HTTPException 500
                   [("message",
                     VStr ("Internal server error: "
                           +:+ NoneType_has_no "get_queue_size"));
                    ("traceback", VTraceback)]),
                 (tts_endpoint (submission (Some " Hello world "))
                    cold_world).2))
    by (vm_compute; reflexivity).
  split; [exact E|]. split.
  - exact (proj2 (tts_endpoint_refusal_changes_nothing
                    (submission (Some " Hello world ")) cold_world) _ _ E).
  - exact (proj1 (tts_endpoint_refusal_changes_nothing
                    (submission (Some " Hello world ")) world)).
Defined.

Lemma delete_audio_touches_one_file_witness :
  "audio/c.mp3" <> audio_path "a"
  /\ fs (delete_audio "a" [] world).2 !! "audio/c.mp3" = Some [Byte.x2a]
  /\ job_manager (delete_audio "a" [] world).2 = Some manager
  /\ ([cleanup_job_task "a"] = []
      \/ [cleanup_job_task "a"] = ([] ++ [cleanup_job_task "a"])%list).
Proof.
  destruct (delete_audio_touches_one_file "a" [] world)
    as (Hmanager & Hfiles & Htasks).
  assert (Hne : "audio/c.mp3" <> audio_path "a") by (vm_compute; discriminate).
  split; [exact Hne|]. split; [|split].
  - rewrite (Hfiles "audio/c.mp3" Hne). reflexivity.
  - rewrite Hmanager. reflexivity.
  - apply (Htasks [("message", VStr "Audio for job a deleted successfully")]
             [cleanup_job_task "a"] (delete_audio "a" [] world).2).
    vm_compute. reflexivity.
Defined.

Lemma delete_audio_uninitialized_removes_file_witness :
  job_manager cold_world = None
  /\ fs cold_world !! audio_path "a" = Some (replicate 120 Byte.x2a)
  /\ exists w',
       (delete_audio "a" [] cold_world).2 = w'
       /\ fs w' !! audio_path "a" = None
       /\ fs w' !! audio_path "c" = Some [Byte.x2a].
Proof.
  split; [reflexivity|]. split; [reflexivity|].
  destruct (delete_audio_uninitialized_removes_file "a" [] cold_world
              (replicate 120 Byte.x2a) eq_refl eq_refl)
    as (w' & Hd & Hgone & _).
  exists w'. split; [by rewrite Hd|]. split; [exact Hgone|].
  assert (w' = (delete_audio "a" [] cold_world).2) as -> by (by rewrite Hd).
  vm_compute. reflexivity.
Defined.

Lemma uninitialized_router_answers_witness :
  job_manager cold_world = None
  /\ tts_endpoint (submission (Some " Hello world ")) cold_world
     = (Raise (HTTPException 500
          [("message",
            VStr "Internal server error: 'NoneType' object has no attribute 'get_queue_size'");
           ("traceback", VTraceback)]), cold_world)
  /\ get_job_status "b" cold_world
     = (Raise (HTTPException 500
          [("message",
            VStr "Error checking job status: 'NoneType' object has no attribute 'get_job_status'");
           ("traceback", VTraceback)]), cold_world)
  /\ get_job_status "a" cold_world
     = (Return {| JobStatusResponse.job_id := "a";
                  JobStatusResponse.status := "completed";
                  JobStatusResponse.message := "Audio is ready" |}, cold_world)
  /\ (JobEntry.job_id <$>
        match (get_all_jobs cold_world).1 with
        | Return l => l
        | Raise _ => []
        end) = ["c"; "a"].
Proof.
  destruct (uninitialized_router_answers cold_world eq_refl)
    as (Htts & Hstatus & Hdone & Hlist & _).
  split; [reflexivity|]. split; [|split; [|split]].
  - exact (Htts (submission (Some " Hello world ")) " Hello world "
             eq_refl ltac:(simpl; discriminate)).
  - exact (Hstatus "b" eq_refl).
  - exact (Hdone "a" (replicate 120 Byte.x2a) eq_refl).
  - rewrite Hlist. vm_compute. reflexivity.
Defined.

Lemma audio_path_one_file_per_job_witness :
  (Py.startswith "/" "a" = false
   /\ audio_path "a" = audio_path "a" /\ "a" = "a")
  /\ Py.startswith "/" "/tmp/a" = true
  /\ audio_path "/tmp/a" = "/tmp/a.mp3".
Proof.
  split.
  - split; [reflexivity|]. split; [reflexivity|].
    exact (proj1 (audio_path_one_file_per_job "a" "a")
             eq_refl eq_refl eq_refl).
  - split; [reflexivity|].
    exact (proj2 (audio_path_one_file_per_job "/tmp/a" "a") eq_refl).
Defined.

Lemma delete_audio_then_fetch_witness :
  (delete_audio "a" [] world).1
  = Return ([("message", VStr "Audio for job a deleted successfully")],
            [cleanup_job_task "a"])
  /\ (exists detail,
        (get_audio "a" (delete_audio "a" [] world).2).1
        = Raise (HTTPException 404 detail))
  /\ exists detail,
       (delete_audio "a" [] (delete_audio "a" [] world).2).1
       = Raise (HTTPException 404 detail).
Proof.
  assert (E : delete_audio "a" [] world
              = (Return ([("message",
                           VStr "Audio for job a deleted successfully")],
                         [cleanup_job_task "a"]),
                 (delete_audio "a" [] world).2))
    by (vm_compute; reflexivity).
  destruct (delete_audio_then_fetch "a" [] world _ _ E)
    as ((detail & Hgone) & Hagain).
  split; [by rewrite E|]. split.
  - exists detail. by rewrite Hgone.
  - destruct (Hagain []) as [detail' Hd]. exists detail'. by rewrite Hd.
Defined.

Lemma delete_audio_then_cleanup_witness :
  cleanup_job_removes_record
  /\ fs world !! audio_path "a" = Some (replicate 120 Byte.x2a)
  /\ dict_get "a" (jobs manager) = Some (job PROCESSING 1700000000 "first")
  /\ exists message w',
       delete_audio "a" [] world
       = (Return (message, [cleanup_job_task "a"]), w')
       /\ (exists response,
             get_job_status "a" w' = (Return response, w')
             /\ JobStatusResponse.status response = "processing")
       /\ exists detail,
            (get_job_status "a" (run_tasks [cleanup_job_task "a"] w')).1
            = Raise (HTTPException 404 detail).
Proof.
  split; [exact reference_cleanup_job_removes_record|].
  split; [reflexivity|]. split; [reflexivity|].
  exact (delete_audio_then_cleanup "a" world (replicate 120 Byte.x2a)
           manager (job PROCESSING 1700000000 "first")
           reference_cleanup_job_removes_record eq_refl eq_refl eq_refl).
Defined.

Lemma tts_endpoint_then_status_witness :
  add_job_records_request
  /\ (tts_endpoint (submission (Some " Hello world ")) world).1
     = Return {| TTSResponseModel.job_id := "job-2" |}
  /\ fs world !! audio_path "job-2" = None
  /\ (get_job_status "job-2"
        (tts_endpoint (submission (Some " Hello world ")) world).2).1
     = Return {| JobStatusResponse.job_id := "job-2";
                 JobStatusResponse.status := "queued";
                 JobStatusResponse.message := "Audio is ready" |}.
Proof.
  assert (E : tts_endpoint (submission (Some " Hello world ")) world
              = (Return {| TTSResponseModel.job_id := "job-2" |},
                 (tts_endpoint (submission (Some " Hello world ")) world).2))
    by (vm_compute; reflexivity).
  split; [exact reference_add_job_records_request|].
  split; [by rewrite E|]. split; [reflexivity|].
  exact (f_equal fst
           (tts_endpoint_then_status (submission (Some " Hello world "))
              world _ {| TTSResponseModel.job_id := "job-2" |}
              reference_add_job_records_request E eq_refl)).
Defined.


Lemma text_preview_bounded_witness :
  Py.len "second" <= 100
  /\ text_preview "second" = "second"
  /\ (forall e,
        e ∈ active_jobs world ->
        exists text, JobEntry.text e = Some text /\ Py.len text <= 103).
Proof.
  destruct text_preview_bounded as [Hpreview Hentries].
  assert (Hshort : Py.len "second" <= 100) by (vm_compute; discriminate).
  split; [exact Hshort|]. split.
  - exact (proj1 (Hpreview "second") Hshort).
  - intros e He. exact (proj2 (proj2 (Hentries world e He))).
Defined.

Lemma tts_endpoint_submits_trimmed_core_witness :
  (tts_endpoint (submission (Some " Hello world ")) world).1
  = Return {| TTSResponseModel.job_id := "job-2" |}
  /\ exists pre post c core d,
       " Hello world " = pre +:+ Py.strip " Hello world " +:+ post
       /\ Py.blank pre = true /\ Py.blank post = true
       /\ Py.strip " Hello world " = String c core
       /\ Py.isspace c = false /\ Py.isspace d = false.
Proof.
  assert (E : tts_endpoint (submission (Some " Hello world ")) world
              = (Return {| TTSResponseModel.job_id := "job-2" |},
                 (tts_endpoint (submission (Some " Hello world ")) world).2))
    by (vm_compute; reflexivity).
  split; [by rewrite E|].
  destruct (tts_endpoint_submits_trimmed_core _ _ _ _ E)
    as (text & m & pre & post & c & core & d & Ht & _ & _ & _ & Hsplit
        & Hpre & Hpost & Hcore & Hc & _ & Hd).
  injection Ht as <-.
  exists pre, post, c, core, d.
  exact (conj Hsplit (conj Hpre (conj Hpost (conj Hcore (conj Hc Hd))))).
Defined.

Lemma tts_endpoint_ignores_outer_whitespace_witness :
  TTSRequestModel.text (submission (Some " Hello world "))
  = Some " Hello world "
  /\ tts_endpoint (submission (Some " Hello world ")) world
     = tts_endpoint (submission (Some "Hello world")) world.
Proof.
  split; [reflexivity|].
  exact (tts_endpoint_ignores_outer_whitespace
           (submission (Some " Hello world ")) " Hello world " world eq_refl).
Defined.

Lemma fetch_and_status_agree_witness :
  (exists response,
      get_audio "a" world = (Return response, world)
      /\ get_job_status "a" world
         = (Return {| JobStatusResponse.job_id := "a";
                      JobStatusResponse.status := "completed";
                      JobStatusResponse.message := "Audio is ready" |}, world))
  /\ (get_job_status "zzz" world
      = (Raise (HTTPException 404
           [("message", VStr "Job zzz not found"); ("job_id", VStr "zzz")]),
         world)
      /\ exists detail,
           get_audio "zzz" world = (Raise (HTTPException 404 detail), world)).
Proof.
  split.
  - destruct (get_audio "a" world) as [[response|e] w'] eqn:E;
      [|vm_compute in E; discriminate E].
    pose proof (proj1 (fetch_and_status_agree "a" world) _ _ E) as Hs.
    assert (w' = world) as ->.
    { pose proof (f_equal snd E) as E2. simpl in E2. rewrite <- E2.
      vm_compute. reflexivity. }
    exists response. split; [reflexivity|exact Hs].
  - assert (E : get_job_status "zzz" world
                = (Raise (HTTPException 404
                     [("message", VStr "Job zzz not found");
                      ("job_id", VStr "zzz")]), world))
      by (vm_compute; reflexivity).
    split; [exact E|].
    exact (proj1 (proj2 (fetch_and_status_agree "zzz" world) _ _ E)).
Defined.

Lemma tts_endpoint_answer_tells_witness :
  (tts_endpoint (submission (Some " Hello world ")) world).1
  = Return {| TTSResponseModel.job_id := "job-2" |}
  /\ (exists text m,
        TTSRequestModel.text (submission (Some " Hello world ")) = Some text
        /\ Py.blank text = false
        /\ job_manager world = Some m
        /\ get_queue_size m <= max_concurrent m * 2)
  /\ (exists m,
        job_manager busy_world = Some m
        /\ get_queue_size m > max_concurrent m * 2).
Proof.
  assert (E : tts_endpoint (submission (Some " Hello world ")) world
              = (Return {| TTSResponseModel.job_id := "job-2" |},
                 (tts_endpoint (submission (Some " Hello world ")) world).2))
    by (vm_compute; reflexivity).
  assert (E' : tts_endpoint (submission (Some " Hello world ")) busy_world
               = (Raise (HTTPException 503
                    [("message",
                      VStr "Server is currently at capacity. Please try again later.");
                     ("queue_size", VInt 3)]), busy_world))
    by (vm_compute; reflexivity).
  split; [by rewrite E|]. split.
  - exact (proj1 (tts_endpoint_answer_tells _ world) _ _ E).
  - destruct (proj1 (proj2 (tts_endpoint_answer_tells _ busy_world)) _ _ E')
      as (m & Hm & Hq & _).
    by exists m.
Defined.

Lemma get_job_status_message_witness :
  get_job_status "b" world
  = (Return {| JobStatusResponse.job_id := "b";
               JobStatusResponse.status := "queued";
               JobStatusResponse.message := "Audio is ready" |}, world)
  /\ ~ (fs world !! audio_path "b" = None
        /\ exists m job_info,
             job_manager world = Some m
             /\ dict_get "b" (jobs m) = Some job_info
             /\ JobInfo.status job_info = PROCESSING).
Proof.
  assert (E : get_job_status "b" world
              = (Return {| JobStatusResponse.job_id := "b";
                           JobStatusResponse.status := "queued";
                           JobStatusResponse.message := "Audio is ready" |},
                 world))
    by (vm_compute; reflexivity).
  split; [exact E|].
  intros Hp. apply (proj1 (get_job_status_message "b" world _ _ E)) in Hp.
  discriminate Hp.
Defined.

Lemma health_check_counts_artifacts_witness :
  audio_dir_lists audio_dir world
  /\ NoDup ["a"; "c"]
  /\ exists health,
       health_check audio_dir world = (Return health, world)
       /\ 2 <= HealthStatus.audio_files_count health.
Proof.
  assert (Hnd : NoDup ["a"; "c"]).
  { apply NoDup_cons. split; [|apply NoDup_singleton].
    intros [=]%list_elem_of_singleton. }
  split; [exact scenario_audio_dir_lists|]. split; [exact Hnd|].
  apply (health_check_counts_artifacts audio_dir world ["a"; "c"]
           scenario_audio_dir_lists Hnd).
  intros job_id Hin.
  apply elem_of_cons in Hin as [->|Hin];
    [split; [reflexivity|by eexists]|].
  apply list_elem_of_singleton in Hin as ->.
  split; [reflexivity|by eexists].
Defined.


(** C4. The listing is not in order of creation time.  In a process
    whose time zone is Europe/Berlin, the job created at 00:30 UTC on
    2023-10-29 (02:30 local summer time) is listed before the job created
    forty minutes later (02:10 local standard time): the sort compares
    the local wall-clock texts, and the local hour from 02:00 to 03:00
    passes twice that night. *)
Lemma get_all_jobs_older_job_first :
  (PrimFloat.ltb 1698539400 1698541800 = true
   /\ @get_all_jobs Reference.berlin_runtime Reference.job_management
        Reference.storage autumn_world
      = (Return
           [{| JobEntry.job_id := "old";
               JobEntry.status := "queued";
               JobEntry.created_at := Some "2023-10-29T02:30:00";
               JobEntry.audio_exists := false;
               JobEntry.text := Some "first" |};
            {| JobEntry.job_id := "new";
               JobEntry.status := "queued";
               JobEntry.created_at := Some "2023-10-29T02:10:00";
               JobEntry.audio_exists := false;
               JobEntry.text := Some "second" |}], autumn_world))
  /\ ~ listing_by_creation_time.
Proof.
  assert (E : @get_all_jobs Reference.berlin_runtime Reference.job_management
                Reference.storage autumn_world
              = (Return
                   [{| JobEntry.job_id := "old";
                       JobEntry.status := "queued";
                       JobEntry.created_at := Some "2023-10-29T02:30:00";
                       JobEntry.audio_exists := false;
                       JobEntry.text := Some "first" |};
                    {| JobEntry.job_id := "new";
                       JobEntry.status := "queued";
                       JobEntry.created_at := Some "2023-10-29T02:10:00";
                       JobEntry.audio_exists := false;
                       JobEntry.text := Some "second" |}], autumn_world))
    by (vm_compute; reflexivity).
  split; [split; [vm_compute; reflexivity|exact E]|].
  intros Hclaim.
  pose proof (Hclaim Reference.berlin_runtime autumn_world autumn_manager
                _ 0%nat 1%nat _ _
                (job QUEUED 1698539400 "first")
                (job QUEUED 1698541800 "second")
                eq_refl (f_equal fst E) ltac:(lia)
                eq_refl eq_refl eq_refl eq_refl eq_refl eq_refl) as Hle.
  vm_compute in Hle. discriminate Hle.
Qed.

End OnTheScenario.
